(** * alexa-slack: a shallow embedding of [index.js]

    The skill backend turns a spoken intent into a short chain of HTTP calls
    (device address, geocoding, timezone, Slack snooze, Slack status).  This
    development embeds the functions of [index.js] and states the properties
    of the specification over them.

    Layout: JavaScript strings are [string]; a value that may be [undefined]
    is an [option]; numbers that only count milliseconds or minutes are [Z];
    numbers that come out of a JSON body are IEEE-754 doubles ([float]);
    promises are computations in a small monad that threads the log of the
    observable events (HTTP requests issued, responses emitted). *)

From Stdlib Require Import ZArith Bool List String Ascii Lia.
From Stdlib Require Import Uint63 Floats.PrimFloat Floats.FloatOps Floats.SpecFloat.
Import ListNotations.

Local Open Scope string_scope.
Local Open Scope Z_scope.

(* ================================================================== *)
(** ** JavaScript strings *)

Module JsString.

(** [s.match(/kw/)] for a pattern made of plain letters is non-null exactly
    when [kw] occurs in [s] as a run of consecutive characters. *)
Fixpoint includes (kw s : string) : bool :=
  String.prefix kw s ||
  match s with
  | EmptyString => false
  | String _ rest => includes kw rest
  end.

(** The same, as a proposition. *)
Definition Occurs (kw s : string) : Prop :=
  exists before after, s = before ++ kw ++ after.

(** Template literals render [undefined] as the word itself. *)
Definition interpolate (v : option string) : string :=
  match v with
  | Some s => s
  | None => "undefined"
  end.

(** Truthiness of a value that is either a string or [undefined]. *)
Definition truthy (v : option string) : bool :=
  match v with
  | Some EmptyString => false
  | Some _ => true
  | None => false
  end.

(** [s.toLowerCase()] on the letters A to Z. *)
Definition lowerChar (c : ascii) : ascii :=
  let n := N_of_ascii c in
  if ((65 <=? n) && (n <=? 90))%N then ascii_of_N (n + 32) else c.

Fixpoint toLowerCase (s : string) : string :=
  match s with
  | EmptyString => EmptyString
  | String c rest => String (lowerChar c) (toLowerCase rest)
  end.

End JsString.

(* ================================================================== *)
(** ** Time Normalizer ([normalizeAmazonTime], index.js 177-193) *)

(** The [switch] compares with strict equality and has no [default]. *)
Definition normalizeAmazonTime (time : string) : string :=
  if String.eqb time "MO" then "09:00"
  else if String.eqb time "AF" then "13:00"
  else if String.eqb time "EV" then "19:00"
  else if String.eqb time "NI" then "21:00"
  else time.

(** The coarse periods of the day, with the slot value the voice platform
    sends for each (the [case] labels) and the clock time the specification
    assigns to it. *)
Inductive CoarsePeriod := Morning | Afternoon | Evening | Night.

Definition slotToken (p : CoarsePeriod) : string :=
  match p with
  | Morning => "MO"
  | Afternoon => "AF"
  | Evening => "EV"
  | Night => "NI"
  end.

Definition specifiedClock (p : CoarsePeriod) : string :=
  match p with
  | Morning => "09:00"
  | Afternoon => "13:00"
  | Evening => "19:00"
  | Night => "21:00"
  end.

Definition isCoarseToken (s : string) : Prop :=
  exists p, s = slotToken p.

(* ================================================================== *)
(** ** Status Mapper ([emojifyStatus], index.js 302-360) *)

Record Profile := mkProfile {
  status_text : string;
  status_emoji : string
}.

Definition emojifyStatus (status : string) : Profile :=
  if JsString.includes "lunch" status then
    {| status_text := status; status_emoji := ":taco:" |}
  else if JsString.includes "coffee" status then
    {| status_text := status; status_emoji := ":coffee:" |}
  else if JsString.includes "busy" status then
    {| status_text := "Do not disturb"; status_emoji := ":no_entry_sign:" |}
  else if JsString.includes "errand" status then
    {| status_text := status; status_emoji := ":running:" |}
  else if JsString.includes "doctor" status then
    {| status_text := status; status_emoji := ":face_with_thermometer:" |}
  else if JsString.includes "away" status then
    {| status_text := status; status_emoji := ":no_entry_sign:" |}
  else if JsString.includes "call" status then
    {| status_text := status; status_emoji := ":slack_call:" |}
  else if JsString.includes "meeting" status then
    {| status_text := status; status_emoji := ":calendar:" |}
  else if JsString.includes "sick" status then
    {| status_text := status; status_emoji := ":face_with_thermometer:" |}
  else if JsString.includes "commuting" status then
    {| status_text := status; status_emoji := ":bus:" |}
  else
    {| status_text := status; status_emoji := ":speech_balloon:" |}.

(** The specification's reading of the mapper: a priority list of keywords,
    each with the profile it produces; the first keyword that occurs wins. *)
Module StatusSpec.

Definition priority : list string :=
  ["lunch"; "coffee"; "busy"; "errand"; "doctor";
   "away"; "call"; "meeting"; "sick"; "commuting"].

Definition profileFor (kw status : string) : Profile :=
  if String.eqb kw "lunch" then mkProfile status ":taco:"
  else if String.eqb kw "coffee" then mkProfile status ":coffee:"
  else if String.eqb kw "busy" then mkProfile "Do not disturb" ":no_entry_sign:"
  else if String.eqb kw "errand" then mkProfile status ":running:"
  else if String.eqb kw "doctor" then mkProfile status ":face_with_thermometer:"
  else if String.eqb kw "away" then mkProfile status ":no_entry_sign:"
  else if String.eqb kw "call" then mkProfile status ":slack_call:"
  else if String.eqb kw "meeting" then mkProfile status ":calendar:"
  else if String.eqb kw "sick" then mkProfile status ":face_with_thermometer:"
  else if String.eqb kw "commuting" then mkProfile status ":bus:"
  else mkProfile status ":speech_balloon:".

Definition generic (status : string) : Profile :=
  mkProfile status ":speech_balloon:".

(** [earliest kws status] is the first keyword of [kws] occurring in
    [status], if any. *)
Fixpoint earliest (kws : list string) (status : string) : option string :=
  match kws with
  | [] => None
  | kw :: rest =>
      if JsString.includes kw status then Some kw else earliest rest status
  end.

Definition classify (status : string) : Profile :=
  match earliest priority status with
  | Some kw => profileFor kw status
  | None => generic status
  end.

(** A status that names a keyword, but never in the letter case the mapper
    looks for. *)
Definition keywordOnlyInOtherCase (status : string) : Prop :=
  (exists kw, In kw priority
              /\ JsString.Occurs kw (JsString.toLowerCase status))
  /\ (forall kw, In kw priority -> ~ JsString.Occurs kw status).

End StatusSpec.

(* ================================================================== *)
(** ** The host: clock and time zone *)

(** What the code reads from its host: [Date.now()] in milliseconds since
    the epoch, and the host zone's offset from UTC in minutes at a given
    instant (what moment derives from [Date.prototype.getTimezoneOffset]).
    Within one call the clock is read as one instant. *)
Record Host := mkHost {
  clock : Z;
  zoneOffset : Z -> Z
}.

(* ================================================================== *)
(** ** The part of moment.js that [getMinutesUntil] uses *)

Module Moment.

Definition msPerMinute : Z := 60000.
Definition msPerDay : Z := 86400000.

(** A moment object keeps a date [_d], an [_offset] in minutes and the flag
    [_isUTC].  In UTC mode the displayed fields are the UTC fields of [_d],
    and the instant it denotes is [_d - _offset] (moment's [valueOf]). *)
Record t := mk {
  _d : Z;
  _offset : Z;
  _isUTC : bool
}.

Definition valueOf (m : t) : Z := _d m - _offset m * msPerMinute.

(** [moment(ms)]: a local-mode moment at the instant [ms]. *)
Definition ofMillis (ms : Z) : t :=
  {| _d := ms; _offset := 0; _isUTC := false |}.

(** Midnight (UTC) of the UTC calendar day an instant falls on. *)
Definition startOfUtcDay (ms : Z) : Z := msPerDay * (ms / msPerDay).

Definition digit (c : ascii) : option Z :=
  let n := Z.of_N (N_of_ascii c) in
  if (48 <=? n) && (n <=? 57) then Some (n - 48) else None.

(** A clock time in 24-hour [HH:mm] form: two digits, a colon, two digits,
    hours at most 23 and minutes at most 59.  Moment's lenient reading of
    other strings is not modelled. *)
Definition parseHHmm (s : string) : option (Z * Z) :=
  match s with
  | String h1 (String h2 (String sep (String m1 (String m2 EmptyString)))) =>
      match digit h1, digit h2, digit m1, digit m2 with
      | Some a, Some b, Some c, Some e =>
          let H := 10 * a + b in
          let M := 10 * c + e in
          if Ascii.eqb sep ":" && (H <=? 23) && (M <=? 59)
          then Some (H, M) else None
      | _, _, _, _ => None
      end
  | _ => None
  end.

(** [moment(`${time}Z`, 'HH:mmZ')]: the [Z] token makes the parser take the
    missing year, month and day from today's date in UTC and build the date
    in UTC; the result is a local-mode moment. *)
Definition parseTodayUtc (h : Host) (time : string) : option t :=
  match parseHHmm time with
  | Some (H, M) =>
      Some (ofMillis (startOfUtcDay (clock h) + (60 * H + M) * msPerMinute))
  | None => None
  end.

(** The number handed to [utcOffset] is read as hours when its absolute
    value is below 16, as minutes otherwise. *)
Definition offsetMinutes (input : Z) : Z :=
  if Z.abs input <? 16 then input * 60 else input.

(** [m.utcOffset(input, keepLocalTime)].  On a local-mode moment with
    [keepLocalTime] the host's local reading is kept as the displayed
    fields; without [keepLocalTime] the instant is kept and the displayed
    fields move by the change of offset. *)
Definition utcOffset (h : Host) (input : Z) (keepLocalTime : bool) (m : t) : t :=
  let input := offsetMinutes input in
  let localAdjust :=
    if negb (_isUTC m) && keepLocalTime then zoneOffset h (_d m) else 0 in
  let d1 := _d m + localAdjust * msPerMinute in
  let d2 :=
    if (_offset m =? input) || keepLocalTime then d1
    else d1 + (input - _offset m) * msPerMinute in
  {| _d := d2; _offset := input; _isUTC := true |}.

(** [m.add(n, 'day')] on a UTC-mode moment moves the UTC date field. *)
Definition addDays (n : Z) (m : t) : t :=
  {| _d := _d m + n * msPerDay; _offset := _offset m; _isUTC := _isUTC m |}.

(** [a > b] compares the instants. *)
Definition gt (a b : t) : bool := valueOf a >? valueOf b.

(** [a.diff(b, 'minutes')]: the difference of the instants in minutes,
    rounded toward zero. *)
Definition diffMinutes (a b : t) : Z :=
  Z.quot (valueOf a - valueOf b) msPerMinute.

Definition hasDigit (s : string) : bool :=
  existsb (fun c => match digit c with Some _ => true | None => false end)
          (list_ascii_of_string s).

Definition digitChar (n : Z) : ascii :=
  ascii_of_N (Z.to_N (48 + n)).

Definition twoDigits (n : Z) : string :=
  String (digitChar (n / 10)) (String (digitChar (n mod 10)) EmptyString).

Definition hour12 (H : Z) : string :=
  let h := if H mod 12 =? 0 then 12 else H mod 12 in
  if h <? 10 then String (digitChar h) EmptyString else twoDigits h.

(** [moment(time, 'HH:mm').format('h:mm a')]: the 12-hour reading of a
    well-formed clock time; a string without any digit parses to nothing and
    formats as moment's invalid-date text; other strings are not modelled. *)
Definition format_h_mm_a (time : string) : option string :=
  match parseHHmm time with
  | Some (H, M) =>
      Some (hour12 H ++ ":" ++ twoDigits M ++ (if H <? 12 then " am" else " pm"))
  | None => if hasDigit time then None else Some "Invalid date"
  end.

End Moment.

(* ================================================================== *)
(** ** Offset-Aware Duration Calculator ([getMinutesUntil], index.js 201-213) *)

(** Line 203: the requested time placed on today's date, shown at the given
    offset. *)
Definition requestedMoment (h : Host) (requested_time : string) (offset : Z)
  : option Moment.t :=
  option_map (Moment.utcOffset h offset true)
             (Moment.parseTodayUtc h requested_time).

(** Line 204: the current instant, shown at the given offset. *)
Definition nowMoment (h : Host) (offset : Z) : Moment.t :=
  Moment.utcOffset h offset false (Moment.ofMillis (clock h)).

(** Lines 208-210: a requested time in the past is taken to mean the next
    day. *)
Definition rollOver (now requested : Moment.t) : Moment.t :=
  if Moment.gt now requested then Moment.addDays 1 requested else requested.

(** [None] stands for a requested time outside the modelled [HH:mm] form. *)
Definition getMinutesUntil (h : Host) (requested_time : string) (offset : Z)
  : option Z :=
  match requestedMoment h requested_time offset with
  | Some requested =>
      let now := nowMoment h offset in
      Some (Moment.diffMinutes (rollOver now requested) now)
  | None => None
  end.

(** The instant, in milliseconds, that line 203 builds for the clock time
    [H:M]: midnight of today's UTC date, plus the clock time, plus the host
    zone's offset, minus the offset as moment reads it.  This is the target
    of the code; the target of the specification, on today's date at the
    offset, is [DurationSpec.targetInstant]. *)
Definition targetInstant (h : Host) (H M offset : Z) : Z :=
  let d := Moment.startOfUtcDay (clock h) + (60 * H + M) * Moment.msPerMinute in
  d + zoneOffset h d * Moment.msPerMinute
    - Moment.offsetMinutes offset * Moment.msPerMinute.

(** The clock shows the same calendar date at the given offset as in UTC. *)
Definition sameDateAsUtc (h : Host) (offset : Z) : Prop :=
  Moment.startOfUtcDay
    (clock h + Moment.offsetMinutes offset * Moment.msPerMinute)
  = Moment.startOfUtcDay (clock h).

(** A host in UTC (the zone the hosted function runs in) whose clock shows
    [ms]. *)
Definition utcHost (ms : Z) : Host :=
  {| clock := ms; zoneOffset := fun _ => 0 |}.

(* ================================================================== *)
(** ** JavaScript numbers out of a JSON body *)

Module JsNumber.

(** A field that is absent reads [undefined], which arithmetic turns into
    NaN. *)
Definition toNumber (v : option float) : float :=
  match v with
  | Some x => x
  | None => nan
  end.

(** The double of an integer below 2^53 in absolute value (each such
    integer is a double). *)
Definition ofZ (z : Z) : float :=
  match z with
  | Z0 => zero
  | Zpos _ => of_uint63 (Uint63.of_Z z)
  | Zneg _ => opp (of_uint63 (Uint63.of_Z (- z)))
  end.

(** The integer a double denotes, when it denotes one: a finite double is
    [m * 2^e], an integer when [e] is not negative or when the low [-e] bits
    of [m] are zero. *)
Definition toZ (x : float) : option Z :=
  match Prim2SF x with
  | S754_zero _ => Some 0
  | S754_finite s m e =>
      let magnitude :=
        if 0 <=? e then Some (Z.shiftl (Zpos m) e)
        else
          let whole := Z.shiftr (Zpos m) (- e) in
          if Z.shiftl whole (- e) =? Zpos m then Some whole else None in
      option_map (fun v => if s then - v else v) magnitude
  | S754_infinity _ => None
  | S754_nan => None
  end.

Definition isInteger (x : float) : bool :=
  match toZ x with
  | Some _ => true
  | None => false
  end.

(** [q] is [num / den] up to the rounding of one IEEE-754 operation: with
    [q = v * 2^e], the distance of [q * den] from [num] is at most 2^-53 of
    [num] ([den] positive; the shifts multiply by powers of two). *)
Definition roundedQuotient (q : float) (num den : Z) : bool :=
  match Prim2SF q with
  | S754_zero _ => num =? 0
  | S754_finite s m e =>
      let v := if s then Zneg m else Zpos m in
      if 0 <=? e
      then Z.shiftl (Z.abs (den * Z.shiftl v e - num)) 53 <=? Z.abs num
      else Z.shiftl (Z.abs (den * v - Z.shiftl num (- e))) 53
           <=? Z.shiftl (Z.abs num) (- e)
  | S754_infinity _ => false
  | S754_nan => false
  end.

(** What dividing a whole number of seconds by 60 must satisfy: the result
    is the rounded quotient; it is the integer [seconds / 60] when 60
    divides [seconds] and no integer otherwise. *)
Definition minutesCheck (seconds : Z) : bool :=
  let q := PrimFloat.div (ofZ seconds) 60%float in
  roundedQuotient q seconds 60
  && match toZ q with
     | Some z => (seconds mod 60 =? 0) && (z =? seconds / 60)
     | None => negb (seconds mod 60 =? 0)
     end.

(** [ofZ] and [toZ] agree on [z]. *)
Definition wholeCheck (z : Z) : bool :=
  match toZ (ofZ z) with
  | Some z' => z' =? z
  | None => false
  end.

(** [p] holds of the [n] integers from [lo] on. *)
Fixpoint allFrom (lo : Z) (n : nat) (p : Z -> bool) : bool :=
  match n with
  | O => true
  | S n' => if p lo then allFrom (lo + 1) n' p else false
  end.

(** A day in seconds: no zone is further from UTC. *)
Definition secondsPerDay : Z := 86400.

End JsNumber.

(* ================================================================== *)
(** ** HTTP requests and responses *)

Module Http.

(** The first geocoding result, as far as the code reads it:
    [geometry.location.lat] and [geometry.location.lng]. *)
Record GeoResult := mkGeoResult {
  lat : float;
  lng : float
}.

(** The fields of a JSON response body that some stage reads; an absent
    field is [None], and [ok] is the truthiness of the field of that name
    (falsy when absent). *)
Record Body := mkBody {
  postalCode : option string;
  countryCode : option string;
  status : option string;
  results : option (list GeoResult);
  rawOffset : option float;
  dstOffset : option float;
  ok : bool;
  error : option string
}.

Record Response := mkResponse {
  statusCode : Z;
  body : Body
}.

(** The five calls the code makes, each with the values it puts into the
    URL, the headers or the form (the API key comes from the environment and
    is the same in every call). *)
Inductive Request :=
| EchoAddress (device_id consent_token : option string)
| Geocode (address : string)
| Timezone (location : GeoResult) (timestamp : Z)
| SetSnooze (num_minutes : Z) (token : option string)
| SetProfile (profile : Profile) (token : option string).

Definition emptyBody : Body :=
  mkBody None None None None None None false None.

End Http.

(** The outside world of one turn: the host and the answer each request
    gets. *)
Record World := mkWorld {
  host : Host;
  respond : Http.Request -> Http.Response
}.

(** What a turn does that can be observed from outside. *)
Inductive Event :=
| Requested (r : Http.Request)
| Emitted (verb : string) (arguments : list string).

Definition isRequest (e : Event) : bool :=
  match e with
  | Requested _ => true
  | Emitted _ _ => false
  end.

Definition isEmit (e : Event) : bool :=
  match e with
  | Requested _ => false
  | Emitted _ _ => true
  end.

(* ================================================================== *)
(** ** Promises *)

(** A rejection reason: an [Error] built by the code with its message, or
    the [TypeError] the engine raises on reading a property of [undefined]. *)
Inductive JsError :=
| Error (message : string)
| TypeError (property : string).

Definition errorMessage (e : JsError) : string :=
  match e with
  | Error message => message
  | TypeError property =>
      "Cannot read property '" ++ property ++ "' of undefined"
  end.

(** How a promise settles; [Unmodelled] marks a run that leaves the
    modelled fragment (a requested time that is not [HH:mm], an offset that
    is not a whole number of minutes). *)
Inductive Settled (A : Type) :=
| Fulfilled (value : A)
| Rejected (reason : JsError)
| Unmodelled.

Arguments Fulfilled {A} value.
Arguments Rejected {A} reason.
Arguments Unmodelled {A}.

(** A promise-returning function, run in a world from the log of events so
    far: it settles and extends the log. *)
Definition Promise (A : Type) : Type :=
  World -> list Event -> Settled A * list Event.

Definition resolve {A} (a : A) : Promise A :=
  fun _ log => (Fulfilled a, log).

Definition reject {A} (e : JsError) : Promise A :=
  fun _ log => (Rejected e, log).

Definition unmodelled {A} : Promise A :=
  fun _ log => (Unmodelled, log).

(** [p.then(f)]: [f] runs only when [p] is fulfilled. *)
Definition then_ {A B} (p : Promise A) (f : A -> Promise B) : Promise B :=
  fun w log =>
    match p w log with
    | (Fulfilled a, log') => f a w log'
    | (Rejected e, log') => (Rejected e, log')
    | (Unmodelled, log') => (Unmodelled, log')
    end.

(** [p.catch(f)]: [f] runs only when [p] is rejected. *)
Definition catch_ {A} (p : Promise A) (f : JsError -> Promise A) : Promise A :=
  fun w log =>
    match p w log with
    | (Rejected e, log') => f e w log'
    | settled => settled
    end.

(** [request(opts)] with [simple: false] and [resolveWithFullResponse: true]:
    the call is issued and the promise is fulfilled with the full response,
    whatever its status code. *)
Definition request (r : Http.Request) : Promise Http.Response :=
  fun w log => (Fulfilled (respond w r), (log ++ [Requested r])%list).

(** [this.emit(verb, ...arguments)] hands a response to the voice platform
    and returns to the caller. *)
Definition emit (verb : string) (arguments : list string) : Promise unit :=
  fun _ log => (Fulfilled tt, (log ++ [Emitted verb arguments])%list).

Definition getHost : Promise Host :=
  fun w log => (Fulfilled (host w), log).

Declare Scope promise_scope.
Delimit Scope promise_scope with promise.
Notation "x <- p ;; q" := (then_ p (fun x => q))
  (at level 61, p at next level, right associativity) : promise_scope.
Notation "p ;; q" := (then_ p (fun _ => q))
  (at level 61, right associativity) : promise_scope.
Local Open Scope promise_scope.

(* ================================================================== *)
(** ** Location/Timezone Resolver (index.js 221-295) *)

Definition permissionMessage : string :=
  "I'm sorry, I couldn't get your location. Make sure you've given this skill permission to use your address in the Alexa app.".

Definition geocodePrefix : string :=
  "I'm sorry, I couldn't understand that address. The response from Google Maps was ".

Definition timezonePrefix : string :=
  "I'm sorry, I couldn't get the timezone for that location. The response from Google Maps was ".

(** [x === 'OK'] for a field that is a string or absent. *)
Definition isOK (v : option string) : bool :=
  match v with
  | Some s => String.eqb s "OK"
  | None => false
  end.

Definition getEchoAddress (device_id consent_token : option string)
  : Promise string :=
  response <- request (Http.EchoAddress device_id consent_token) ;;
  if Http.statusCode response =? 200 then
    resolve (JsString.interpolate (Http.postalCode (Http.body response)) ++ " "
             ++ JsString.interpolate (Http.countryCode (Http.body response)))
  else
    reject (Error permissionMessage).

(** Fulfilled with [results[0]], which is [undefined] when the array is
    empty; reading index 0 of an absent array throws. *)
Definition geocodeLocation (location : string)
  : Promise (option Http.GeoResult) :=
  response <- request (Http.Geocode location) ;;
  if (Http.statusCode response =? 200)
     && isOK (Http.status (Http.body response)) then
    match Http.results (Http.body response) with
    | Some found => resolve (hd_error found)
    | None => reject (TypeError "0")
    end
  else
    reject (Error (geocodePrefix
                   ++ JsString.interpolate (Http.status (Http.body response)))).

(** Building the URL reads [location.geometry], which throws on
    [undefined] before any call is made; the timestamp is
    [Math.round(Date.now()/1000)]. *)
Definition getUTCOffset (location : option Http.GeoResult) : Promise float :=
  match location with
  | None => reject (TypeError "geometry")
  | Some place =>
      h <- getHost ;;
      response <- request (Http.Timezone place ((clock h + 500) / 1000)) ;;
      if (Http.statusCode response =? 200)
         && isOK (Http.status (Http.body response)) then
        resolve (PrimFloat.div
                   (PrimFloat.add
                      (JsNumber.toNumber (Http.rawOffset (Http.body response)))
                      (JsNumber.toNumber (Http.dstOffset (Http.body response))))
                   60%float)
      else
        reject (Error (timezonePrefix
                       ++ JsString.interpolate (Http.status (Http.body response))))
  end.

Definition getEchoUTCOffset (device_id consent_token : option string)
  : Promise float :=
  then_ (then_ (getEchoAddress device_id consent_token) geocodeLocation)
        getUTCOffset.

(* ================================================================== *)
(** ** Slack calls (index.js 112-169) *)

Definition snoozePrefix : string :=
  "I couldn't snooze notifications. The error from Slack was: ".

Definition statusPrefix : string :=
  "I couldn't set the status. The error from Slack was: ".

Definition setSlackDND (minutes : Z) (token : option string) : Promise unit :=
  response <- request (Http.SetSnooze minutes token) ;;
  if negb (Http.statusCode response =? 200)
     || negb (Http.ok (Http.body response)) then
    reject (Error (snoozePrefix
                   ++ JsString.interpolate (Http.error (Http.body response))))
  else
    resolve tt.

Definition setSlackStatus (profile : Profile) (token : option string)
  : Promise unit :=
  response <- request (Http.SetProfile profile token) ;;
  if negb (Http.statusCode response =? 200)
     || negb (Http.ok (Http.body response)) then
    reject (Error (statusPrefix
                   ++ JsString.interpolate (Http.error (Http.body response))))
  else
    resolve tt.

Definition setSlackDNDUntil (time : option string) (offset : float)
    (token : option string) : Promise unit :=
  h <- getHost ;;
  match time, JsNumber.toZ offset with
  | Some t, Some minutesEast =>
      match getMinutesUntil h (normalizeAmazonTime t) minutesEast with
      | Some minutes => setSlackDND minutes token
      | None => unmodelled
      end
  | _, _ => unmodelled
  end.

(* ================================================================== *)
(** ** Busy/snooze intent ([slackBusyIntentHandler], index.js 59-83) *)

(** The five values that lines 60-64 read out of the inbound event, each a
    string or [undefined].  The reads themselves, which throw when an
    object on the way is absent, are [busyValues] over [Alexa.Event]. *)
Record IntentEvent := mkIntentEvent {
  deviceId : option string;
  consentToken : option string;
  accessToken : option string;
  statusSlot : option string;
  timeSlot : option string
}.

Definition repromptSpeech : string :=
  "I'm sorry, I didn't hear you. Could you say that again?".

Definition linkAccountSpeech : string :=
  "Please connect your Slack account to Alexa using the Alexa app on your phone.".

Definition noStatusSpeech : string :=
  "I didn't get your status, please try again.".

Definition noTimeSpeech : string :=
  "I didn't get the time, please try again.".

Definition confirmationPrefix : string :=
  "Okay, I'll change your status and snooze your notifications until ".

(** An [if] without [else] and without [return]: control falls to the next
    statement either way. *)
Definition when (condition : bool) (p : Promise unit) : Promise unit :=
  if condition then p else resolve tt.

(** Lines 66-82 on the five values read; the whole function on an inbound
    event is [slackBusyIntent].  A requested time or an offset outside the
    modelled fragment ends the run as [Unmodelled]: the log then stops
    short of what the code goes on to do. *)
Definition slackBusyIntentHandler (ev : IntentEvent) : Promise unit :=
  let device_id := deviceId ev in
  let consent_token := consentToken ev in
  let access_token := accessToken ev in
  let status := statusSlot ev in
  let requested_time := timeSlot ev in
  when (negb (JsString.truthy access_token))
       (emit ":tellWithLinkAccountCard" [linkAccountSpeech]) ;;
  when (negb (JsString.truthy status))
       (emit ":ask" [noStatusSpeech; repromptSpeech]) ;;
  when (negb (JsString.truthy requested_time))
       (emit ":ask" [noTimeSpeech; repromptSpeech]) ;;
  catch_
    (then_ (then_ (then_
       (getEchoUTCOffset device_id consent_token)
       (fun offset => setSlackDNDUntil requested_time offset access_token))
       (fun _ =>
          match status with
          | Some s => setSlackStatus (emojifyStatus s) access_token
          | None => reject (TypeError "match")
          end))
       (fun _ =>
          match requested_time with
          | Some t =>
              match Moment.format_h_mm_a t with
              | Some shown => emit ":tell" [confirmationPrefix ++ shown ++ "."]
              | None => unmodelled
              end
          | None => unmodelled
          end))
    (fun error => emit ":tell" [errorMessage error]).

(** The events of one turn of the busy/snooze intent. *)
Definition turn (w : World) (ev : IntentEvent) : list Event :=
  snd (slackBusyIntentHandler ev w []).

Definition requestsOf (log : list Event) : list Event := filter isRequest log.
Definition emitsOf (log : list Event) : list Event := filter isEmit log.

(** A promise-returning function only ever adds to the log. *)
Definition extends {A} (p : Promise A) : Prop :=
  forall w log, exists added, snd (p w log) = (log ++ added)%list.

(** The re-prompts the validation at the top of the handler emits. *)
Definition validationEmits (ev : IntentEvent) : list Event :=
  ((if JsString.truthy (accessToken ev) then []
    else [Emitted ":tellWithLinkAccountCard" [linkAccountSpeech]])
   ++ (if JsString.truthy (statusSlot ev) then []
       else [Emitted ":ask" [noStatusSpeech; repromptSpeech]])
   ++ (if JsString.truthy (timeSlot ev) then []
       else [Emitted ":ask" [noTimeSpeech; repromptSpeech]]))%list.

(** A slot or token is missing when it is [undefined] or empty. *)
Definition missing (v : option string) : Prop := JsString.truthy v = false.

(* ================================================================== *)
(** ** Concrete worlds used in the examples *)

Module Examples.

(** 2017-06-01 23:00:00 UTC, in milliseconds since the epoch. *)
Definition lateEveningUtc : Z := 1496358000000.

(** 2017-06-01 13:00:00 UTC (08:00 at five hours behind UTC). *)
Definition middayUtc : Z := 1496322000000.

(** 2017-06-02 01:00:00 UTC (20:00 of June 1st at five hours behind UTC). *)
Definition shortlyAfterMidnightUtc : Z := 1496365200000.

Definition washington : Http.GeoResult :=
  Http.mkGeoResult 38.875%float (-77)%float.

(** Every service answers with success; Slack accepts a call only when it
    carries a token and reports [not_authed] otherwise. *)
Definition successful (r : Http.Request) : Http.Response :=
  match r with
  | Http.EchoAddress _ _ =>
      Http.mkResponse 200
        (Http.mkBody (Some "20003") (Some "US") None None None None false None)
  | Http.Geocode _ =>
      Http.mkResponse 200
        (Http.mkBody None None (Some "OK") (Some [washington]) None None false
           None)
  | Http.Timezone _ _ =>
      Http.mkResponse 200
        (Http.mkBody None None (Some "OK") None
           (Some (-18000)%float) (Some 3600%float) false None)
  | Http.SetSnooze _ token | Http.SetProfile _ token =>
      Http.mkResponse 200
        (Http.mkBody None None None None None None (JsString.truthy token)
           (if JsString.truthy token then None else Some "not_authed"))
  end.

Definition allGood : World :=
  {| host := utcHost middayUtc; respond := successful |}.

(** The device-address service refuses (no permission granted); its body
    carries the service's own error texts. *)
Definition addressRefused : World :=
  {| host := utcHost middayUtc;
     respond := fun r =>
       match r with
       | Http.EchoAddress _ _ =>
           Http.mkResponse 403
             (Http.mkBody None None (Some "FORBIDDEN") None None None false
                (Some "ACCESS_DENIED"))
       | _ => successful r
       end |}.

(** The geocoding service finds nothing. *)
Definition geocodeEmpty : World :=
  {| host := utcHost middayUtc;
     respond := fun r =>
       match r with
       | Http.Geocode _ =>
           Http.mkResponse 200
             (Http.mkBody None None (Some "ZERO_RESULTS") (Some []) None None
                false None)
       | _ => successful r
       end |}.

(** The timezone service is over its quota. *)
Definition timezoneOverLimit : World :=
  {| host := utcHost middayUtc;
     respond := fun r =>
       match r with
       | Http.Timezone _ _ =>
           Http.mkResponse 200
             (Http.mkBody None None (Some "OVER_QUERY_LIMIT") None None None
                false None)
       | _ => successful r
       end |}.

(** The timezone service reports offsets that are not whole minutes. *)
Definition oddSeconds : World :=
  {| host := utcHost middayUtc;
     respond := fun r =>
       match r with
       | Http.Timezone _ _ =>
           Http.mkResponse 200
             (Http.mkBody None None (Some "OK") None
                (Some 20000%float) (Some 3600%float) false None)
       | _ => successful r
       end |}.

(** A busy/snooze request from a user who has not linked an account. *)
Definition notLinked : IntentEvent :=
  {| deviceId := Some "amzn1.ask.device.A1";
     consentToken := Some "consent";
     accessToken := None;
     statusSlot := Some "in a meeting";
     timeSlot := Some "13:00" |}.

(** The same user with an account linked. *)
Definition linked : IntentEvent :=
  {| deviceId := Some "amzn1.ask.device.A1";
     consentToken := Some "consent";
     accessToken := Some "xoxp-1";
     statusSlot := Some "in a meeting";
     timeSlot := Some "13:00" |}.

(** A linked user whose status was not understood. *)
Definition noStatus : IntentEvent :=
  {| deviceId := Some "amzn1.ask.device.A1";
     consentToken := Some "consent";
     accessToken := Some "xoxp-1";
     statusSlot := None;
     timeSlot := Some "13:00" |}.

End Examples.

(* ================================================================== *)
(** ** The other intent handlers (index.js 12-53, 85-102) *)

Definition launchQuestion : string := "What would you like to do?".

Definition launchLinkSpeech : string :=
  "Please connect your Slack account to Alexa using the Alexa app.".

Definition clearedSpeech : string := "Okay, I'll clear your status.".

Definition okaySpeech : string := "Okay".

Definition unhandledSpeech : string :=
  "I didn't get that. What would you like to do?".

(** The help text, built by the three assignments of lines 94-96. *)
Definition helpSpeech : string :=
  "<p>Here are a few things you can do:</p>"
  ++ "<p>To set your status and snooze your notifications, say: I'm in status until time, for example: I'm in a call until 5:00 pm. This will set your status and mute your notifications until that time.</p>"
  ++ "<p>To clear your status, say: clear my status.</p>".

Definition launchRequestHandler (ev : IntentEvent) : Promise unit :=
  let access_token := accessToken ev in
  if JsString.truthy access_token then
    emit ":ask" [launchQuestion; repromptSpeech]
  else
    emit ":tellWithLinkAccountCard" [launchLinkSpeech].

Definition slackClearStatusIntentHandler (ev : IntentEvent) : Promise unit :=
  let access_token := accessToken ev in
  let status := {| status_text := ""; status_emoji := "" |} in
  when (negb (JsString.truthy access_token))
       (emit ":tellWithLinkAccountCard" [linkAccountSpeech]) ;;
  catch_
    (then_ (setSlackStatus status access_token)
           (fun _ => emit ":tell" [clearedSpeech]))
    (fun error => emit ":tell" [errorMessage error]).

Definition stopIntentHandler (ev : IntentEvent) : Promise unit :=
  emit ":tell" [okaySpeech].

Definition cancelIntentHandler (ev : IntentEvent) : Promise unit :=
  emit ":tell" [okaySpeech].

Definition helpIntentHandler (ev : IntentEvent) : Promise unit :=
  emit ":ask" [helpSpeech; repromptSpeech].

Definition unhandledIntentHandler (ev : IntentEvent) : Promise unit :=
  emit ":ask" [unhandledSpeech; repromptSpeech].

(** The table of lines 12-20. *)
Definition handlers : list (string * (IntentEvent -> Promise unit)) :=
  [("LaunchRequest", launchRequestHandler);
   ("AMAZON.StopIntent", stopIntentHandler);
   ("AMAZON.CancelIntent", cancelIntentHandler);
   ("AMAZON.HelpIntent", helpIntentHandler);
   ("SlackClearStatusIntent", slackClearStatusIntentHandler);
   ("SlackBusyIntent", slackBusyIntentHandler);
   ("Unhandled", unhandledIntentHandler)].

Fixpoint lookupHandler (name : string)
    (table : list (string * (IntentEvent -> Promise unit)))
  : option (IntentEvent -> Promise unit) :=
  match table with
  | [] => None
  | (key, handler) :: rest =>
      if String.eqb key name then Some handler else lookupHandler name rest
  end.

(** The voice platform's SDK runs the handler registered under the name of
    the inbound request or intent, and the one registered as [Unhandled]
    when there is none. *)
Definition dispatch (name : string) (ev : IntentEvent) : Promise unit :=
  match lookupHandler name handlers with
  | Some handler => handler ev
  | None => unhandledIntentHandler ev
  end.

(** The events of one turn of the intent [name]. *)
Definition turnOf (w : World) (name : string) (ev : IntentEvent) : list Event :=
  snd (dispatch name ev w []).

(* ================================================================== *)
(** ** Vocabulary for the properties of runs *)

(** Which of the five services a request goes to. *)
Inductive Service :=
| AddressService
| GeocodeService
| TimezoneService
| SnoozeService
| ProfileService.

Definition serviceOf (r : Http.Request) : Service :=
  match r with
  | Http.EchoAddress _ _ => AddressService
  | Http.Geocode _ => GeocodeService
  | Http.Timezone _ _ => TimezoneService
  | Http.SetSnooze _ _ => SnoozeService
  | Http.SetProfile _ _ => ProfileService
  end.

(** The services called in a log, in the order of the calls. *)
Fixpoint servicesCalled (log : list Event) : list Service :=
  match log with
  | [] => []
  | Requested r :: rest => serviceOf r :: servicesCalled rest
  | Emitted _ _ :: rest => servicesCalled rest
  end.

(** [p] calls the services of [plan] in order, each at most once, stopping
    early only when it is not fulfilled. *)
Definition follows {A} (plan : list Service) (p : Promise A) : Prop :=
  forall w log, exists added,
    snd (p w log) = (log ++ added)%list
    /\ (exists n, servicesCalled added = firstn n plan)
    /\ (forall a, fst (p w log) = Fulfilled a -> servicesCalled added = plan).

(** [p] emits nothing. *)
Definition quiet {A} (p : Promise A) : Prop :=
  forall w log, exists added,
    snd (p w log) = (log ++ added)%list /\ emitsOf added = [].

(** How the location/timezone chain settles in a world, and the calls it
    makes. *)
Definition resolverOutcome (w : World) (device_id consent_token : option string)
  : Settled float :=
  fst (getEchoUTCOffset device_id consent_token w []).

Definition resolverRequests (w : World)
    (device_id consent_token : option string) : list Event :=
  snd (getEchoUTCOffset device_id consent_token w []).

(** The success test of the two Slack calls. *)
Definition slackAccepts (response : Http.Response) : bool :=
  (Http.statusCode response =? 200) && Http.ok (Http.body response).

(** The reading of the clock at the offset, in milliseconds since the
    midnight (UTC) of the clock's UTC date. *)
Definition localMillis (h : Host) (offset : Z) : Z :=
  clock h + Moment.offsetMinutes offset * Moment.msPerMinute
  - Moment.startOfUtcDay (clock h).

Module MoreExamples.

(** Slack refuses every call although it carries a token. *)
Definition slackDown : World :=
  {| host := utcHost Examples.middayUtc;
     respond := fun r =>
       match r with
       | Http.SetSnooze _ _ | Http.SetProfile _ _ =>
           Http.mkResponse 200
             (Http.mkBody None None None None None None false
                (Some "account_inactive"))
       | _ => Examples.successful r
       end |}.

(** The geocoding service reports success without any result. *)
Definition geocodeNoResult : World :=
  {| host := utcHost Examples.middayUtc;
     respond := fun r =>
       match r with
       | Http.Geocode _ =>
           Http.mkResponse 200
             (Http.mkBody None None (Some "OK") (Some []) None None false None)
       | _ => Examples.successful r
       end |}.

(** A linked user who asks for the morning. *)
Definition untilMorning : IntentEvent :=
  {| deviceId := Some "amzn1.ask.device.A1";
     consentToken := Some "consent";
     accessToken := Some "xoxp-1";
     statusSlot := Some "in a meeting";
     timeSlot := Some "MO" |}.

End MoreExamples.

(** The steps of the busy/snooze handler once the offset is known (lines
    79-81), and its last step (line 82). *)
Definition busyAfterOffset (ev : IntentEvent) (offset : float) : Promise unit :=
  then_ (then_
    (setSlackDNDUntil (timeSlot ev) offset (accessToken ev))
    (fun _ =>
       match statusSlot ev with
       | Some s => setSlackStatus (emojifyStatus s) (accessToken ev)
       | None => reject (TypeError "match")
       end))
    (fun _ =>
       match timeSlot ev with
       | Some t =>
           match Moment.format_h_mm_a t with
           | Some shown => emit ":tell" [confirmationPrefix ++ shown ++ "."]
           | None => unmodelled
           end
       | None => unmodelled
       end).

Definition speakError (error : JsError) : Promise unit :=
  emit ":tell" [errorMessage error].

(** The full list of services of a busy/snooze turn. *)
Definition resolverPlan : list Service :=
  [AddressService; GeocodeService; TimezoneService].

Definition busyPlan : list Service :=
  [AddressService; GeocodeService; TimezoneService;
   SnoozeService; ProfileService].

Module TurnExamples.

(** Slack accepts the snooze and refuses the status. *)
Definition statusRefused : World :=
  {| host := utcHost Examples.middayUtc;
     respond := fun r =>
       match r with
       | Http.SetProfile _ _ =>
           Http.mkResponse 200
             (Http.mkBody None None None None None None false
                (Some "too_long"))
       | _ => Examples.successful r
       end |}.

(** The three calls of the location/timezone chain for the example user. *)
Definition resolverCalls : list Event :=
  [Requested (Http.EchoAddress (Some "amzn1.ask.device.A1") (Some "consent"));
   Requested (Http.Geocode "20003 US");
   Requested (Http.Timezone Examples.washington 1496322000)].

(** The offset the example timezone answer gives: four hours west. *)
Definition fourHoursWest : float :=
  PrimFloat.div (PrimFloat.add (-18000) 3600) 60.

End TurnExamples.

(* ================================================================== *)
(** ** The inbound event and the reads of lines 60-64 *)

(** The inbound event as far as the busy/snooze handler walks it.  Every
    object on a path may be absent (the platform leaves out [permissions]
    when the user has granted none), and every leaf is a string or
    [undefined]. *)
Module Alexa.

Record Permissions := mkPermissions { consentToken : option string }.
Record SystemUser := mkSystemUser { permissions : option Permissions }.
Record Device := mkDevice { deviceId : option string }.
Record System := mkSystem {
  device : option Device;
  user : option SystemUser
}.
Record Context := mkContext { system : option System }.
Record SessionUser := mkSessionUser { accessToken : option string }.
Record Session := mkSession { sessionUser : option SessionUser }.
Record Slot := mkSlot { value : option string }.
Record Slots := mkSlots {
  status : option Slot;
  time : option Slot
}.
Record Intent := mkIntent { slots : option Slots }.
Record Request := mkRequest { intent : option Intent }.
Record Event := mkEvent {
  context : option Context;
  session : option Session;
  request : option Request
}.

End Alexa.

(** Reading [object.property]: on an absent object the engine throws the
    TypeError that names the property. *)
Definition getProperty {A} (object : option A) (property : string)
  : JsError + A :=
  match object with
  | Some o => inr o
  | None => inl (TypeError property)
  end.

Definition andThen {A B} (r : JsError + A) (f : A -> JsError + B)
  : JsError + B :=
  match r with
  | inl e => inl e
  | inr a => f a
  end.

(** Lines 60-64, in order: the five values, or the first TypeError. *)
Definition busyValues (e : Alexa.Event) : JsError + IntentEvent :=
  andThen (getProperty (Alexa.context e) "System") (fun context =>
  andThen (getProperty (Alexa.system context) "device") (fun system =>
  andThen (getProperty (Alexa.device system) "deviceId") (fun device =>
  andThen (getProperty (Alexa.user system) "permissions") (fun user =>
  andThen (getProperty (Alexa.permissions user) "consentToken")
          (fun permissions =>
  andThen (getProperty (Alexa.session e) "user") (fun session =>
  andThen (getProperty (Alexa.sessionUser session) "accessToken")
          (fun sessionUser =>
  andThen (getProperty (Alexa.request e) "intent") (fun request =>
  andThen (getProperty (Alexa.intent request) "slots") (fun intent =>
  andThen (getProperty (Alexa.slots intent) "status") (fun slots =>
  andThen (getProperty (Alexa.status slots) "value") (fun status =>
  andThen (getProperty (Alexa.time slots) "value") (fun time =>
  inr {| deviceId := Alexa.deviceId device;
         consentToken := Alexa.consentToken permissions;
         accessToken := Alexa.accessToken sessionUser;
         statusSlot := Alexa.value status;
         timeSlot := Alexa.value time |})))))))))))).

(** The whole of [slackBusyIntentHandler] (lines 59-83) on an inbound
    event.  A TypeError at lines 60-64 is thrown out of the handler before
    any response or call; it is shown as a rejection that nothing catches,
    with the log as it was. *)
Definition slackBusyIntent (e : Alexa.Event) : Promise unit :=
  match busyValues e with
  | inl error => reject error
  | inr ev => slackBusyIntentHandler ev
  end.

(** The events of one busy/snooze turn on an inbound event. *)
Definition busyEvents (w : World) (e : Alexa.Event) : list Event :=
  snd (slackBusyIntent e w []).

(** The run stays within what is modelled (see [Unmodelled]); only then does
    the log say what the code does to the end of the turn. *)
Definition modelled (w : World) (e : Alexa.Event) : Prop :=
  fst (slackBusyIntent e w []) <> Unmodelled.

(* ================================================================== *)
(** ** The specification's target moment *)

(** The target as the specification describes it (4.2, step 1): the
    requested clock time on today's date in the timezone at the given
    offset, the offset being minutes east of UTC.  [getMinutesUntil] builds
    [targetInstant] instead, on today's date in UTC. *)
Module DurationSpec.

(** The instant at which the day that the clock shows at the offset began
    there. *)
Definition startOfDayAt (h : Host) (offset : Z) : Z :=
  Moment.msPerDay
  * ((clock h + offset * Moment.msPerMinute) / Moment.msPerDay)
  - offset * Moment.msPerMinute.

Definition targetInstant (h : Host) (H M offset : Z) : Z :=
  startOfDayAt h offset + (60 * H + M) * Moment.msPerMinute.

(** Steps 3 and 4 on that target: one day more when now is strictly later,
    then the difference in whole minutes. *)
Definition minutesUntil (h : Host) (H M offset : Z) : Z :=
  let target := targetInstant h H M offset in
  if clock h >? target
  then Z.quot (target + Moment.msPerDay - clock h) Moment.msPerMinute
  else Z.quot (target - clock h) Moment.msPerMinute.

End DurationSpec.

Module EventExamples.

Definition slotsOf (status time : option string) : Alexa.Request :=
  Alexa.mkRequest
    (Some (Alexa.mkIntent
       (Some (Alexa.mkSlots (Some (Alexa.mkSlot status))
                            (Some (Alexa.mkSlot time)))))).

(** A linked user who has granted the address permission. *)
Definition granted : Alexa.Event :=
  Alexa.mkEvent
    (Some (Alexa.mkContext
       (Some (Alexa.mkSystem
          (Some (Alexa.mkDevice (Some "amzn1.ask.device.A1")))
          (Some (Alexa.mkSystemUser
             (Some (Alexa.mkPermissions (Some "consent")))))))))
    (Some (Alexa.mkSession
       (Some (Alexa.mkSessionUser (Some "xoxp-1")))))
    (Some (slotsOf (Some "in a meeting") (Some "13:00"))).

(** The same user before granting any permission: the event carries no
    [permissions] object. *)
Definition notGranted : Alexa.Event :=
  Alexa.mkEvent
    (Some (Alexa.mkContext
       (Some (Alexa.mkSystem
          (Some (Alexa.mkDevice (Some "amzn1.ask.device.A1")))
          (Some (Alexa.mkSystemUser None))))))
    (Some (Alexa.mkSession
       (Some (Alexa.mkSessionUser (Some "xoxp-1")))))
    (Some (slotsOf (Some "in a meeting") (Some "13:00"))).

End EventExamples.

(* ================================================================== *)
(** * Properties *)

(** ** Substring test *)

Lemma prefix_occurs (kw s : string) :
  String.prefix kw s = true <-> exists after, s = kw ++ after.
Proof.
  revert s; induction kw as [|c kw IH]; intros [|c' s]; simpl.
  - split; [intros _; now exists "" | reflexivity].
  - split; [intros _; now exists (String c' s) | reflexivity].
  - split; [discriminate | intros [after H]; discriminate].
  - destruct (ascii_dec c c') as [->|Hne].
    + rewrite IH; split; intros [after H]; exists after.
      * now rewrite H.
      * now injection H.
    + split; [discriminate | intros [after H]; injection H; congruence].
Qed.

Lemma includes_occurs (kw s : string) :
  JsString.includes kw s = true <-> JsString.Occurs kw s.
Proof.
  unfold JsString.Occurs.
  induction s as [|c s IH].
  - cbn [JsString.includes]; rewrite orb_false_r, prefix_occurs; split.
    + intros [after H]; now exists "", after.
    + intros [[|b before] [after H]]; [now exists after | discriminate].
  - cbn [JsString.includes]; rewrite orb_true_iff, prefix_occurs, IH; split.
    + intros [[after H]|[before [after H]]].
      * now exists "", after.
      * exists (String c before), after; simpl; now rewrite H.
    + intros [[|b before] [after H]].
      * left; now exists after.
      * right; exists before, after; simpl in H; now injection H.
Qed.

Lemma includes_absent (kw s : string) :
  JsString.includes kw s = false <-> ~ JsString.Occurs kw s.
Proof.
  rewrite <- includes_occurs; destruct (JsString.includes kw s); intuition congruence.
Qed.

(** ** Time Normalizer *)

(** C1: each of the four coarse time tokens (morning, afternoon, evening,
    night, sent by the platform as MO, AF, EV, NI) is mapped to exactly its
    specified clock string 09:00, 13:00, 19:00, 21:00. *)
Theorem normalizeAmazonTime_tokens :
  forall p : CoarsePeriod,
    normalizeAmazonTime (slotToken p) = specifiedClock p.
Proof.
  intros p; destruct p; reflexivity.
Qed.

(** C2: on every string that is not one of the four coarse tokens the
    normalizer is the identity; nothing checks that the string is a
    well-formed clock time. *)
Theorem normalizeAmazonTime_identity :
  forall s : string, ~ isCoarseToken s -> normalizeAmazonTime s = s.
Proof.
  intros s Hs; unfold normalizeAmazonTime.
  destruct (String.eqb_spec s "MO") as [->|_];
    [exfalso; apply Hs; now exists Morning|].
  destruct (String.eqb_spec s "AF") as [->|_];
    [exfalso; apply Hs; now exists Afternoon|].
  destruct (String.eqb_spec s "EV") as [->|_];
    [exfalso; apply Hs; now exists Evening|].
  destruct (String.eqb_spec s "NI") as [->|_];
    [exfalso; apply Hs; now exists Night|].
  reflexivity.
Qed.

Lemma not_a_token_banana : ~ isCoarseToken "25:99 banana".
Proof.
  intros [p H]; destruct p; discriminate H.
Qed.

Lemma normalizeAmazonTime_identity_witness :
  normalizeAmazonTime "25:99 banana" = "25:99 banana".
Proof.
  exact (normalizeAmazonTime_identity "25:99 banana" not_a_token_banana).
Defined.

(** The spelled-out words are not tokens and pass through like any other
    string. *)
Lemma normalizeAmazonTime_words :
  map normalizeAmazonTime ["morning"; "afternoon"; "evening"; "night"]
  = ["morning"; "afternoon"; "evening"; "night"].
Proof.
  reflexivity.
Qed.

(** ** Status Mapper *)

Lemma emojifyStatus_classify (status : string) :
  emojifyStatus status = StatusSpec.classify status.
Proof.
  unfold emojifyStatus, StatusSpec.classify, StatusSpec.priority.
  cbn [StatusSpec.earliest].
  repeat (match goal with
          | |- context [JsString.includes ?kw status] =>
              destruct (JsString.includes kw status); [reflexivity|]
          end).
  reflexivity.
Qed.

Lemma earliest_first (before : list string) (kw : string)
    (after : list string) (status : string) :
  JsString.Occurs kw status ->
  (forall k, In k before -> ~ JsString.Occurs k status) ->
  StatusSpec.earliest (before ++ kw :: after) status = Some kw.
Proof.
  intros Hkw; induction before as [|b before IH]; intros Hnone; simpl.
  - apply includes_occurs in Hkw; now rewrite Hkw.
  - assert (Hb : JsString.includes b status = false)
      by (apply includes_absent, Hnone; now left).
    rewrite Hb; apply IH; intros k Hk; apply Hnone; now right.
Qed.

Lemma earliest_none (kws : list string) (status : string) :
  (forall k, In k kws -> ~ JsString.Occurs k status) ->
  StatusSpec.earliest kws status = None.
Proof.
  induction kws as [|b kws IH]; intros Hnone; simpl; [reflexivity|].
  assert (Hb : JsString.includes b status = false)
    by (apply includes_absent, Hnone; now left).
  rewrite Hb; apply IH; intros k Hk; apply Hnone; now right.
Qed.

(** C5: the mapper tests the keywords in the order lunch, coffee, busy,
    errand, doctor, away, call, meeting, sick, commuting; the earliest
    keyword occurring in the status decides the profile (so "busy lunch"
    gets the lunch emoji), and a status in which none occurs gets
    ':speech_balloon:' with its text kept. *)
Theorem emojifyStatus_priority :
  forall status : string,
    (forall before kw after,
        StatusSpec.priority = (before ++ kw :: after)%list ->
        JsString.Occurs kw status ->
        (forall k, In k before -> ~ JsString.Occurs k status) ->
        emojifyStatus status = StatusSpec.profileFor kw status)
    /\ ((forall k, In k StatusSpec.priority -> ~ JsString.Occurs k status) ->
        emojifyStatus status = mkProfile status ":speech_balloon:")
    /\ emojifyStatus "busy lunch" = mkProfile "busy lunch" ":taco:".
Proof.
  intros status; split; [|split].
  - intros before kw after Hsplit Hkw Hnone.
    rewrite emojifyStatus_classify; unfold StatusSpec.classify.
    rewrite Hsplit, (earliest_first before kw after status Hkw Hnone).
    reflexivity.
  - intros Hnone.
    rewrite emojifyStatus_classify; unfold StatusSpec.classify.
    now rewrite (earliest_none _ status Hnone).
  - reflexivity.
Qed.

(** C6, as amended: a status containing "busy" and neither "lunch" nor
    "coffee" (the two keywords tested before it) gets the text
    "Do not disturb" with ':no_entry_sign:', whatever its wording. *)
Theorem emojifyStatus_busy :
  forall status : string,
    JsString.Occurs "busy" status ->
    ~ JsString.Occurs "lunch" status ->
    ~ JsString.Occurs "coffee" status ->
    emojifyStatus status = mkProfile "Do not disturb" ":no_entry_sign:".
Proof.
  intros status Hbusy Hlunch Hcoffee; unfold emojifyStatus.
  apply includes_occurs in Hbusy.
  apply includes_absent in Hlunch, Hcoffee.
  now rewrite Hlunch, Hcoffee, Hbusy.
Qed.

Lemma emojifyStatus_busy_witness :
  emojifyStatus "I am busy today" = mkProfile "Do not disturb" ":no_entry_sign:".
Proof.
  apply (emojifyStatus_busy "I am busy today").
  - apply includes_occurs; reflexivity.
  - apply includes_absent; reflexivity.
  - apply includes_absent; reflexivity.
Defined.

(** C6 as stated fails: "busy lunch" contains "busy", yet its text is echoed
    and its emoji is the lunch one. *)
Lemma emojifyStatus_busy_lunch_not_dnd :
  JsString.Occurs "busy" "busy lunch"
  /\ status_text (emojifyStatus "busy lunch") = "busy lunch"
  /\ status_emoji (emojifyStatus "busy lunch") = ":taco:"
  /\ emojifyStatus "busy lunch" <> mkProfile "Do not disturb" ":no_entry_sign:".
Proof.
  repeat split.
  - apply includes_occurs; reflexivity.
  - discriminate.
Qed.

(** The scenario of the specification: "in a meeting" gets the calendar. *)
Lemma emojifyStatus_meeting :
  emojifyStatus "in a meeting" = mkProfile "in a meeting" ":calendar:".
Proof.
  reflexivity.
Qed.

(** C10: matching is case-sensitive: "Lunch" and "BUSY" name a keyword only
    in another letter case, match nothing, and get ':speech_balloon:' with
    their text kept. *)
Theorem emojifyStatus_case_sensitive :
  (StatusSpec.keywordOnlyInOtherCase "Lunch"
   /\ emojifyStatus "Lunch" = mkProfile "Lunch" ":speech_balloon:")
  /\ (StatusSpec.keywordOnlyInOtherCase "BUSY"
      /\ emojifyStatus "BUSY" = mkProfile "BUSY" ":speech_balloon:").
Proof.
  assert (Habsent : forall status,
             forallb (fun kw => negb (JsString.includes kw status))
                     StatusSpec.priority = true ->
             forall kw, In kw StatusSpec.priority ->
                        ~ JsString.Occurs kw status).
  { intros status Hall kw Hin.
    rewrite forallb_forall in Hall; specialize (Hall kw Hin).
    apply includes_absent; now destruct (JsString.includes kw status). }
  split; (split; [split|]).
  - exists "lunch"; split; [now left | apply includes_occurs; reflexivity].
  - apply Habsent; reflexivity.
  - reflexivity.
  - exists "busy"; split; [simpl; tauto | apply includes_occurs; reflexivity].
  - apply Habsent; reflexivity.
  - reflexivity.
Qed.

(** ** Offset-Aware Duration Calculator *)

Section Duration.

Variable h : Host.

Lemma digit_range (c : ascii) (n : Z) :
  Moment.digit c = Some n -> 0 <= n <= 9.
Proof.
  unfold Moment.digit.
  destruct ((48 <=? Z.of_N (N_of_ascii c)) && (Z.of_N (N_of_ascii c) <=? 57))
    eqn:E; [|discriminate].
  intros [= <-]; apply andb_true_iff in E; destruct E as [E1 E2].
  apply Z.leb_le in E1, E2; lia.
Qed.

Lemma parseHHmm_range (time : string) (H M : Z) :
  Moment.parseHHmm time = Some (H, M) -> 0 <= H <= 23 /\ 0 <= M <= 59.
Proof.
  unfold Moment.parseHHmm.
  destruct time as [|h1 [|h2 [|sep [|m1 [|m2 [|? ?]]]]]]; try discriminate.
  destruct (Moment.digit h1) as [a|] eqn:Ea; [|discriminate].
  destruct (Moment.digit h2) as [b|] eqn:Eb; [|discriminate].
  destruct (Moment.digit m1) as [c|] eqn:Ec; [|discriminate].
  destruct (Moment.digit m2) as [e|] eqn:Ee; [|discriminate].
  apply digit_range in Ea, Eb, Ec, Ee; cbv zeta.
  destruct (Ascii.eqb sep ":" && (10 * a + b <=? 23) && (10 * c + e <=? 59))
    eqn:E; [|discriminate].
  intros Heq.
  assert (HM : H = 10 * a + b /\ M = 10 * c + e) by (split; congruence).
  destruct HM as [-> ->].
  apply andb_true_iff in E; destruct E as [E E2].
  apply andb_true_iff in E; destruct E as [_ E1].
  apply Z.leb_le in E1, E2; lia.
Qed.

(** Offsets of a quarter of an hour or more, and zero, are read as the
    minutes they are; a smaller one is read as hours. *)
Lemma offsetMinutes_minutes (offset : Z) :
  offset = 0 \/ 16 <= Z.abs offset -> Moment.offsetMinutes offset = offset.
Proof.
  unfold Moment.offsetMinutes; intros [->|Hbig]; [reflexivity|].
  destruct (Z.ltb_spec (Z.abs offset) 16); [lia | reflexivity].
Qed.

Lemma valueOf_nowMoment (offset : Z) :
  Moment.valueOf (nowMoment h offset) = clock h.
Proof.
  unfold nowMoment, Moment.utcOffset, Moment.valueOf, Moment.ofMillis.
  cbn [Moment._d Moment._offset Moment._isUTC negb andb].
  rewrite orb_false_r.
  destruct (0 =? Moment.offsetMinutes offset) eqn:E.
  - apply Z.eqb_eq in E; rewrite <- E; lia.
  - lia.
Qed.

Lemma requestedMoment_target (time : string) (offset H M : Z) :
  Moment.parseHHmm time = Some (H, M) ->
  exists requested,
    requestedMoment h time offset = Some requested
    /\ Moment.valueOf requested = targetInstant h H M offset.
Proof.
  intros Hparse.
  unfold requestedMoment, Moment.parseTodayUtc; rewrite Hparse.
  cbn [option_map].
  eexists; split; [reflexivity|].
  unfold Moment.valueOf, Moment.utcOffset, Moment.ofMillis, targetInstant.
  cbn [Moment._d Moment._offset Moment._isUTC negb andb].
  rewrite orb_true_r; reflexivity.
Qed.

(** The whole function on a well-formed clock time, in closed form. *)
Lemma getMinutesUntil_closed_form (time : string) (offset H M : Z) :
  Moment.parseHHmm time = Some (H, M) ->
  getMinutesUntil h time offset =
  Some (if clock h >? targetInstant h H M offset
        then Z.quot (targetInstant h H M offset + Moment.msPerDay - clock h)
                    Moment.msPerMinute
        else Z.quot (targetInstant h H M offset - clock h) Moment.msPerMinute).
Proof.
  intros Hparse.
  destruct (requestedMoment_target time offset H M Hparse) as (r & Hr & Hv).
  unfold getMinutesUntil; rewrite Hr; f_equal.
  unfold rollOver, Moment.gt, Moment.diffMinutes.
  rewrite valueOf_nowMoment, Hv.
  destruct (clock h >? targetInstant h H M offset); [|now rewrite Hv].
  f_equal; rewrite <- Hv; unfold Moment.valueOf, Moment.addDays.
  cbn [Moment._d Moment._offset]; lia.
Qed.

(** In terms of the instant that line 203 builds: when it is not before
    now, no day is added and the result is the difference to now in whole
    minutes, 0 when the two are equal. *)
Theorem getMinutesUntil_not_past :
  forall (time : string) (offset H M : Z),
    Moment.parseHHmm time = Some (H, M) ->
    clock h <= targetInstant h H M offset ->
    exists requested,
      requestedMoment h time offset = Some requested
      /\ Moment.valueOf requested = targetInstant h H M offset
      /\ rollOver (nowMoment h offset) requested = requested
      /\ getMinutesUntil h time offset =
         Some ((targetInstant h H M offset - clock h) / Moment.msPerMinute)
      /\ (clock h = targetInstant h H M offset ->
          getMinutesUntil h time offset = Some 0).
Proof.
  intros time offset H M Hparse Hle.
  destruct (requestedMoment_target time offset H M Hparse) as (r & Hr & Hv).
  assert (Hgt : (clock h >? targetInstant h H M offset) = false)
    by (rewrite Z.gtb_ltb; apply Z.ltb_ge; exact Hle).
  exists r; repeat split; try assumption.
  - unfold rollOver, Moment.gt; now rewrite valueOf_nowMoment, Hv, Hgt.
  - rewrite (getMinutesUntil_closed_form time offset H M Hparse), Hgt.
    f_equal; apply Z.quot_div_nonneg; unfold Moment.msPerMinute; lia.
  - intros Heq.
    rewrite (getMinutesUntil_closed_form time offset H M Hparse), Hgt.
    now rewrite <- Heq, Z.sub_diag.
Qed.

(** When now is after the target, one day is added and the result is
    target + 1 day - now in minutes, rounded toward zero. *)
Lemma getMinutesUntil_past (time : string) (offset H M : Z) :
  Moment.parseHHmm time = Some (H, M) ->
  targetInstant h H M offset < clock h ->
  exists requested,
    requestedMoment h time offset = Some requested
    /\ rollOver (nowMoment h offset) requested = Moment.addDays 1 requested
    /\ getMinutesUntil h time offset =
       Some (Z.quot (targetInstant h H M offset + Moment.msPerDay - clock h)
                    Moment.msPerMinute).
Proof.
  intros Hparse Hlt.
  destruct (requestedMoment_target time offset H M Hparse) as (r & Hr & Hv).
  assert (Hgt : (clock h >? targetInstant h H M offset) = true)
    by (rewrite Z.gtb_ltb; apply Z.ltb_lt; exact Hlt).
  exists r; repeat split; try assumption.
  - unfold rollOver, Moment.gt; now rewrite valueOf_nowMoment, Hv, Hgt.
  - now rewrite (getMinutesUntil_closed_form time offset H M Hparse), Hgt.
Qed.

(** On a host in UTC, the rolled-over result is within a day as long as the
    clock shows the same date at the offset as in UTC. *)
Lemma getMinutesUntil_past_same_date (time : string) (offset H M : Z) :
  (forall ms, zoneOffset h ms = 0) ->
  Moment.parseHHmm time = Some (H, M) ->
  sameDateAsUtc h offset ->
  targetInstant h H M offset < clock h ->
  exists minutes,
    getMinutesUntil h time offset = Some minutes /\ 0 <= minutes < 1440.
Proof.
  intros Hzone Hparse Hsame Hlt.
  destruct (getMinutesUntil_past time offset H M Hparse Hlt) as (r & _ & _ & Hm).
  eexists; split; [exact Hm|].
  apply parseHHmm_range in Hparse.
  unfold sameDateAsUtc, targetInstant, Moment.startOfUtcDay,
    Moment.msPerDay, Moment.msPerMinute in *.
  rewrite Hzone in *.
  Z.to_euclidean_division_equations; lia.
Qed.

End Duration.

Lemma getMinutesUntil_not_past_witness :
  exists requested,
    requestedMoment (utcHost Examples.middayUtc) "09:00" (-300) = Some requested
    /\ Moment.valueOf requested
       = targetInstant (utcHost Examples.middayUtc) 9 0 (-300)
    /\ rollOver (nowMoment (utcHost Examples.middayUtc) (-300)) requested
       = requested
    /\ getMinutesUntil (utcHost Examples.middayUtc) "09:00" (-300)
       = Some ((targetInstant (utcHost Examples.middayUtc) 9 0 (-300)
                - clock (utcHost Examples.middayUtc)) / Moment.msPerMinute)
    /\ (clock (utcHost Examples.middayUtc)
        = targetInstant (utcHost Examples.middayUtc) 9 0 (-300) ->
        getMinutesUntil (utcHost Examples.middayUtc) "09:00" (-300) = Some 0).
Proof.
  apply (getMinutesUntil_not_past (utcHost Examples.middayUtc) "09:00" (-300) 9 0).
  - reflexivity.
  - vm_compute; discriminate.
Defined.

(** The scenarios of the specification: 09:00 asked at 08:00 gives 60
    minutes; 09:00 asked at 10:00 rolls over and gives 1380. *)
Lemma getMinutesUntil_scenarios :
  getMinutesUntil (utcHost Examples.middayUtc) (normalizeAmazonTime "MO") (-300)
  = Some 60
  /\ getMinutesUntil (utcHost Examples.middayUtc) "09:00" (-180) = Some 1380.
Proof.
  split; reflexivity.
Qed.

(** C4: at 23:00 UTC, which is 09:00 of the next day ten hours east of UTC,
    a request for 00:30 is in the past; one day is added, and the result is
    -510 minutes, outside of [0, 1440). *)
Theorem getMinutesUntil_rollover_negative :
  let h := utcHost Examples.lateEveningUtc in
  Moment.parseHHmm "00:30" = Some (0, 30)
  /\ targetInstant h 0 30 600 < clock h
  /\ getMinutesUntil h "00:30" 600
     = Some (Z.quot (targetInstant h 0 30 600 + Moment.msPerDay - clock h)
                    Moment.msPerMinute)
  /\ getMinutesUntil h "00:30" 600 = Some (-510)
  /\ ~ (0 <= -510 < 1440).
Proof.
  cbv zeta; repeat split; try reflexivity.
  intros [Hneg _]; apply Hneg; reflexivity.
Qed.

(** The same defect without rollover: at 01:00 UTC, which is 20:00 of the
    day before five hours west of UTC, a request for 21:00 is placed on the
    UTC date and gives 1500 minutes, not 60. *)
Lemma getMinutesUntil_wrong_date :
  getMinutesUntil (utcHost Examples.shortlyAfterMidnightUtc) "21:00" (-300)
  = Some 1500.
Proof.
  reflexivity.
Qed.

(** ** Location/Timezone Resolver *)

Section Resolver.

Variable w : World.
Variables device_id consent_token : option string.

Let addressRequest := Http.EchoAddress device_id consent_token.
Let addressResponse := respond w addressRequest.
Let location :=
  JsString.interpolate (Http.postalCode (Http.body addressResponse)) ++ " "
  ++ JsString.interpolate (Http.countryCode (Http.body addressResponse)).
Let geocodeResponse := respond w (Http.Geocode location).
Let timestamp := (clock (host w) + 500) / 1000.

Lemma isOK_iff (v : option string) : isOK v = true <-> v = Some "OK".
Proof.
  destruct v as [s|]; simpl.
  - rewrite String.eqb_eq; split; congruence.
  - split; discriminate.
Qed.

Lemma success_iff (r : Http.Response) :
  (Http.statusCode r =? 200) && isOK (Http.status (Http.body r)) = false
  <-> (Http.statusCode r <> 200 \/ Http.status (Http.body r) <> Some "OK").
Proof.
  rewrite andb_false_iff, Z.eqb_neq, <- isOK_iff.
  destruct (isOK (Http.status (Http.body r))); intuition congruence.
Qed.

Lemma getEchoAddress_run (log : list Event) :
  getEchoAddress device_id consent_token w log =
  (if Http.statusCode addressResponse =? 200
   then Fulfilled location
   else Rejected (Error permissionMessage),
   (log ++ [Requested addressRequest])%list).
Proof.
  unfold getEchoAddress, then_, request, resolve, reject.
  fold addressRequest addressResponse.
  now destruct (Http.statusCode addressResponse =? 200).
Qed.

Lemma geocodeLocation_run (address : string) (log : list Event) :
  geocodeLocation address w log =
  (let response := respond w (Http.Geocode address) in
   if (Http.statusCode response =? 200)
      && isOK (Http.status (Http.body response))
   then match Http.results (Http.body response) with
        | Some found => Fulfilled (hd_error found)
        | None => Rejected (TypeError "0")
        end
   else Rejected (Error (geocodePrefix
          ++ JsString.interpolate (Http.status (Http.body response)))),
   (log ++ [Requested (Http.Geocode address)])%list).
Proof.
  unfold geocodeLocation, then_, request, resolve, reject; cbv zeta.
  destruct ((Http.statusCode (respond w (Http.Geocode address)) =? 200)
            && isOK (Http.status
                       (Http.body (respond w (Http.Geocode address)))));
    [|reflexivity].
  now destruct (Http.results (Http.body (respond w (Http.Geocode address)))).
Qed.

Lemma getUTCOffset_run (place : Http.GeoResult) (log : list Event) :
  getUTCOffset (Some place) w log =
  (let response := respond w (Http.Timezone place timestamp) in
   if (Http.statusCode response =? 200)
      && isOK (Http.status (Http.body response))
   then Fulfilled
          (PrimFloat.div
             (PrimFloat.add
                (JsNumber.toNumber (Http.rawOffset (Http.body response)))
                (JsNumber.toNumber (Http.dstOffset (Http.body response))))
             60%float)
   else Rejected (Error (timezonePrefix
          ++ JsString.interpolate (Http.status (Http.body response)))),
   (log ++ [Requested (Http.Timezone place timestamp)])%list).
Proof.
  unfold getUTCOffset, then_, getHost, request, resolve, reject; cbv zeta.
  fold timestamp.
  now destruct ((Http.statusCode (respond w (Http.Timezone place timestamp))
                 =? 200)
                && isOK (Http.status
                           (Http.body
                              (respond w (Http.Timezone place timestamp))))).
Qed.

(** C7, as amended: a stage whose response is not a success (the address
    stage: a status code other than 200; the geocoding and timezone stages:
    a status code other than 200 or a body status other than "OK") makes
    the whole chain reject, and the requests issued end with that stage's.
    The geocoding and timezone messages end with the body's status field;
    the address message is a fixed text. *)
Theorem resolver_stops_at_first_failure :
  forall log : list Event,
    (Http.statusCode addressResponse <> 200 ->
     getEchoUTCOffset device_id consent_token w log =
     (Rejected (Error permissionMessage),
      (log ++ [Requested addressRequest])%list))
    /\ (Http.statusCode addressResponse = 200 ->
        (Http.statusCode geocodeResponse <> 200
         \/ Http.status (Http.body geocodeResponse) <> Some "OK") ->
        getEchoUTCOffset device_id consent_token w log =
        (Rejected (Error (geocodePrefix ++ JsString.interpolate
                            (Http.status (Http.body geocodeResponse)))),
         (log ++ [Requested addressRequest;
                  Requested (Http.Geocode location)])%list))
    /\ (forall place others,
        Http.statusCode addressResponse = 200 ->
        Http.statusCode geocodeResponse = 200 ->
        Http.status (Http.body geocodeResponse) = Some "OK" ->
        Http.results (Http.body geocodeResponse) = Some (place :: others) ->
        let timezoneResponse := respond w (Http.Timezone place timestamp) in
        (Http.statusCode timezoneResponse <> 200
         \/ Http.status (Http.body timezoneResponse) <> Some "OK") ->
        getEchoUTCOffset device_id consent_token w log =
        (Rejected (Error (timezonePrefix ++ JsString.interpolate
                            (Http.status (Http.body timezoneResponse)))),
         (log ++ [Requested addressRequest;
                  Requested (Http.Geocode location);
                  Requested (Http.Timezone place timestamp)])%list)).
Proof.
  intros log; unfold getEchoUTCOffset, then_.
  rewrite getEchoAddress_run.
  split; [|split].
  - intros Hcode; apply Z.eqb_neq in Hcode.
    now rewrite Hcode.
  - intros Hcode Hfail.
    apply Z.eqb_eq in Hcode; apply success_iff in Hfail.
    rewrite Hcode, geocodeLocation_run; cbv zeta.
    fold geocodeResponse; rewrite Hfail.
    now rewrite <- app_assoc.
  - intros place others Hcode Hcode2 Hok Hfirst Hfail.
    apply Z.eqb_eq in Hcode, Hcode2.
    apply isOK_iff in Hok; apply success_iff in Hfail.
    rewrite Hcode, geocodeLocation_run; cbv zeta.
    fold geocodeResponse; rewrite Hcode2, Hok, Hfirst; cbn [andb hd_error].
    rewrite getUTCOffset_run; cbv zeta.
    rewrite Hfail.
    now rewrite <- !app_assoc.
Qed.

End Resolver.

(** C7 as stated fails at the address stage: the device-address service
    answers 403 with its own error texts in the body, the chain rejects with
    the fixed permission text, and neither error text is part of it. *)
Lemma resolver_address_message_is_fixed :
  let request := Http.EchoAddress (Some "device") (Some "consent") in
  let response := respond Examples.addressRefused request in
  Http.statusCode response = 403
  /\ Http.status (Http.body response) = Some "FORBIDDEN"
  /\ Http.error (Http.body response) = Some "ACCESS_DENIED"
  /\ getEchoUTCOffset (Some "device") (Some "consent")
       Examples.addressRefused []
     = (Rejected (Error permissionMessage), [Requested request])
  /\ JsString.includes "FORBIDDEN" permissionMessage = false
  /\ JsString.includes "ACCESS_DENIED" permissionMessage = false.
Proof.
  cbv zeta; repeat split.
Qed.

(** The three failures on concrete worlds. *)
Lemma resolver_failure_examples :
  getEchoUTCOffset (Some "device") (Some "consent") Examples.addressRefused []
  = (Rejected (Error permissionMessage),
     [Requested (Http.EchoAddress (Some "device") (Some "consent"))])
  /\ getEchoUTCOffset (Some "device") (Some "consent") Examples.geocodeEmpty []
     = (Rejected (Error (geocodePrefix ++ "ZERO_RESULTS")),
        [Requested (Http.EchoAddress (Some "device") (Some "consent"));
         Requested (Http.Geocode "20003 US")])
  /\ getEchoUTCOffset (Some "device") (Some "consent")
       Examples.timezoneOverLimit []
     = (Rejected (Error (timezonePrefix ++ "OVER_QUERY_LIMIT")),
        [Requested (Http.EchoAddress (Some "device") (Some "consent"));
         Requested (Http.Geocode "20003 US");
         Requested (Http.Timezone Examples.washington 1496322000)]).
Proof.
  repeat split.
Qed.

(** ** Division of the offset *)

Lemma allFrom_spec (p : Z -> bool) (n : nat) :
  forall lo, JsNumber.allFrom lo n p = true ->
  forall z, lo <= z < lo + Z.of_nat n -> p z = true.
Proof.
  induction n as [|n IH]; intros lo Hall z Hz.
  - lia.
  - cbn [JsNumber.allFrom] in Hall.
    destruct (p lo) eqn:Hlo; [|discriminate].
    destruct (Z.eq_dec z lo) as [->|Hne]; [assumption|].
    apply (IH (lo + 1) Hall); lia.
Qed.

Lemma minutes_checked :
  JsNumber.allFrom (- JsNumber.secondsPerDay)
    (Z.to_nat (2 * JsNumber.secondsPerDay + 1)) JsNumber.minutesCheck = true.
Proof.
  vm_compute; reflexivity.
Qed.

Lemma whole_minutes_checked :
  JsNumber.allFrom (-1440) (Z.to_nat 2881) JsNumber.wholeCheck = true.
Proof.
  vm_compute; reflexivity.
Qed.

Lemma toZ_ofZ (z : Z) :
  -1440 <= z <= 1440 -> JsNumber.toZ (JsNumber.ofZ z) = Some z.
Proof.
  intros Hz.
  assert (Hc : JsNumber.wholeCheck z = true)
    by (apply (allFrom_spec _ _ _ whole_minutes_checked); lia).
  unfold JsNumber.wholeCheck in Hc.
  destruct (JsNumber.toZ (JsNumber.ofZ z)) as [z'|]; [|discriminate].
  apply Z.eqb_eq in Hc; now subst.
Qed.

(** Dividing a whole number of seconds (within a day of zero) by 60 in
    doubles. *)
Lemma division_by_60 (seconds : Z) :
  - JsNumber.secondsPerDay <= seconds <= JsNumber.secondsPerDay ->
  let q := PrimFloat.div (JsNumber.ofZ seconds) 60%float in
  JsNumber.roundedQuotient q seconds 60 = true
  /\ (seconds mod 60 = 0 -> JsNumber.toZ q = Some (seconds / 60))
  /\ (seconds mod 60 <> 0 ->
      JsNumber.toZ q = None /\ q <> JsNumber.ofZ (Z.quot seconds 60)).
Proof.
  intros Hrange q.
  assert (Hc : JsNumber.minutesCheck seconds = true).
  { apply (allFrom_spec _ _ _ minutes_checked).
    unfold JsNumber.secondsPerDay in *; lia. }
  unfold JsNumber.minutesCheck in Hc; fold q in Hc.
  apply andb_true_iff in Hc; destruct Hc as [Hround Hint].
  split; [exact Hround|].
  destruct (JsNumber.toZ q) as [z|] eqn:Hq.
  - apply andb_true_iff in Hint; destruct Hint as [Hmod Hz].
    apply Z.eqb_eq in Hmod, Hz; subst z.
    split; [reflexivity | intros Hne; contradiction].
  - apply negb_true_iff, Z.eqb_neq in Hint.
    split; [intros Hmod; contradiction|].
    intros _; split; [reflexivity|].
    intros Heq; rewrite Heq, toZ_ofZ in Hq; [discriminate|].
    unfold JsNumber.secondsPerDay in *.
    Z.to_euclidean_division_equations; lia.
Qed.

(** C9: on a successful timezone response the offset is the double
    [(rawOffset + dstOffset) / 60], one floating-point division with no
    truncation.  When the two second values sum to a whole number
    [seconds] (within a day of zero), the offset is the quotient
    [seconds / 60] up to the rounding of that division; it is the integer
    [seconds / 60] when 60 divides [seconds], and otherwise it is no integer
    and differs from the truncated quotient. *)
Theorem getUTCOffset_divides_without_truncation :
  forall (w : World) (place : Http.GeoResult) (log : list Event),
    let call := Http.Timezone place ((clock (host w) + 500) / 1000) in
    let answer := Http.body (respond w call) in
    let sum := PrimFloat.add (JsNumber.toNumber (Http.rawOffset answer))
                             (JsNumber.toNumber (Http.dstOffset answer)) in
    Http.statusCode (respond w call) = 200 ->
    Http.status answer = Some "OK" ->
    exists offset : float,
      getUTCOffset (Some place) w log
      = (Fulfilled offset, (log ++ [Requested call])%list)
      /\ offset = PrimFloat.div sum 60%float
      /\ (forall seconds : Z,
             sum = JsNumber.ofZ seconds ->
             - JsNumber.secondsPerDay <= seconds <= JsNumber.secondsPerDay ->
             JsNumber.roundedQuotient offset seconds 60 = true
             /\ (seconds mod 60 = 0 ->
                 JsNumber.toZ offset = Some (seconds / 60))
             /\ (seconds mod 60 <> 0 ->
                 JsNumber.toZ offset = None
                 /\ offset <> JsNumber.ofZ (Z.quot seconds 60))).
Proof.
  intros w place log call answer sum Hcode Hok.
  exists (PrimFloat.div sum 60%float).
  split; [|split; [reflexivity|]].
  - rewrite getUTCOffset_run; cbv zeta; fold call answer sum.
    apply Z.eqb_eq in Hcode; apply isOK_iff in Hok.
    now rewrite Hcode, Hok.
  - intros seconds Hsum Hrange; rewrite Hsum.
    exact (division_by_60 seconds Hrange).
Qed.

Lemma getUTCOffset_divides_without_truncation_witness :
  exists offset : float,
    getUTCOffset (Some Examples.washington) Examples.oddSeconds []
    = (Fulfilled offset,
       [Requested (Http.Timezone Examples.washington 1496322000)])
    /\ offset = PrimFloat.div (PrimFloat.add 20000 3600) 60
    /\ (forall seconds : Z,
           PrimFloat.add 20000 3600 = JsNumber.ofZ seconds ->
           - JsNumber.secondsPerDay <= seconds <= JsNumber.secondsPerDay ->
           JsNumber.roundedQuotient offset seconds 60 = true
           /\ (seconds mod 60 = 0 ->
               JsNumber.toZ offset = Some (seconds / 60))
           /\ (seconds mod 60 <> 0 ->
               JsNumber.toZ offset = None
               /\ offset <> JsNumber.ofZ (Z.quot seconds 60))).
Proof.
  apply (getUTCOffset_divides_without_truncation
           Examples.oddSeconds Examples.washington []).
  - reflexivity.
  - reflexivity.
Defined.

(** The offset of the witness: 23600 seconds are 393 minutes and a third,
    and the double is not the truncated 393. *)
Lemma odd_seconds_offset :
  getUTCOffset (Some Examples.washington) Examples.oddSeconds []
  = (Fulfilled (PrimFloat.div 23600 60),
     [Requested (Http.Timezone Examples.washington 1496322000)])
  /\ JsNumber.toZ (PrimFloat.div 23600 60) = None
  /\ JsNumber.toZ 393%float = Some 393
  /\ PrimFloat.ltb 393 (PrimFloat.div 23600 60) = true
  /\ PrimFloat.ltb (PrimFloat.div 23600 60) 394 = true.
Proof.
  repeat split.
Qed.

(** ** Busy/snooze intent *)

Create HintDb promise.

Lemma extends_resolve {A} (a : A) : extends (resolve a).
Proof. intros w log; exists []; simpl; now rewrite app_nil_r. Qed.

Lemma extends_reject {A} (e : JsError) : extends (@reject A e).
Proof. intros w log; exists []; simpl; now rewrite app_nil_r. Qed.

Lemma extends_unmodelled {A} : extends (@unmodelled A).
Proof. intros w log; exists []; simpl; now rewrite app_nil_r. Qed.

Lemma extends_getHost : extends getHost.
Proof. intros w log; exists []; simpl; now rewrite app_nil_r. Qed.

Lemma extends_request (r : Http.Request) : extends (request r).
Proof. intros w log; now exists [Requested r]. Qed.

Lemma extends_emit (verb : string) (arguments : list string) :
  extends (emit verb arguments).
Proof. intros w log; now exists [Emitted verb arguments]. Qed.

Lemma extends_then {A B} (p : Promise A) (f : A -> Promise B) :
  extends p -> (forall a, extends (f a)) -> extends (then_ p f).
Proof.
  intros Hp Hf w log; unfold then_.
  destruct (Hp w log) as [added Hadded].
  destruct (p w log) as [[a|e|] log']; simpl in Hadded; subst log'.
  - destruct (Hf a w (log ++ added)%list) as [more Hmore].
    exists (added ++ more)%list; now rewrite Hmore, app_assoc.
  - now exists added.
  - now exists added.
Qed.

Lemma extends_catch {A} (p : Promise A) (f : JsError -> Promise A) :
  extends p -> (forall e, extends (f e)) -> extends (catch_ p f).
Proof.
  intros Hp Hf w log; unfold catch_.
  destruct (Hp w log) as [added Hadded].
  destruct (p w log) as [[a|e|] log']; simpl in Hadded; subst log'.
  - now exists added.
  - destruct (Hf e w (log ++ added)%list) as [more Hmore].
    exists (added ++ more)%list; now rewrite Hmore, app_assoc.
  - now exists added.
Qed.

#[local] Hint Resolve extends_resolve extends_reject extends_unmodelled
  extends_getHost extends_request extends_emit : promise.

Ltac extends_step :=
  first [ apply extends_then; [|intro]
        | apply extends_catch; [|intro]
        | solve [auto with promise]
        | match goal with
          | |- extends (match ?x with _ => _ end) => destruct x
          | |- extends (if ?c then _ else _) => destruct c
          end ].

Lemma extends_geocodeLocation (location : string) :
  extends (geocodeLocation location).
Proof. unfold geocodeLocation; repeat extends_step. Qed.

Lemma extends_getUTCOffset (location : option Http.GeoResult) :
  extends (getUTCOffset location).
Proof. unfold getUTCOffset; repeat extends_step. Qed.

Lemma extends_setSlackDND (minutes : Z) (token : option string) :
  extends (setSlackDND minutes token).
Proof. unfold setSlackDND; repeat extends_step. Qed.

Lemma extends_setSlackStatus (profile : Profile) (token : option string) :
  extends (setSlackStatus profile token).
Proof. unfold setSlackStatus; repeat extends_step. Qed.

#[local] Hint Resolve extends_geocodeLocation extends_getUTCOffset
  extends_setSlackDND extends_setSlackStatus : promise.

Lemma extends_setSlackDNDUntil (time : option string) (offset : float)
    (token : option string) :
  extends (setSlackDNDUntil time offset token).
Proof. unfold setSlackDNDUntil; repeat extends_step. Qed.

#[local] Hint Resolve extends_setSlackDNDUntil : promise.

(** The log after [p], run from [log], begins with [log] followed by
    [first]. *)
Lemma then_keeps_first {A B} (p : Promise A) (f : A -> Promise B)
    (w : World) (log first : list Event) :
  (exists rest, snd (p w log) = (log ++ first ++ rest)%list) ->
  (forall a, extends (f a)) ->
  exists rest, snd (then_ p f w log) = (log ++ first ++ rest)%list.
Proof.
  intros [rest Hp] Hf; unfold then_.
  destruct (p w log) as [[a|e|] log']; simpl in Hp; subst log'.
  - destruct (Hf a w (log ++ first ++ rest)%list) as [more Hmore].
    exists (rest ++ more)%list; now rewrite Hmore, <- !app_assoc.
  - now exists rest.
  - now exists rest.
Qed.

Lemma catch_keeps_first {A} (p : Promise A) (f : JsError -> Promise A)
    (w : World) (log first : list Event) :
  (exists rest, snd (p w log) = (log ++ first ++ rest)%list) ->
  (forall e, extends (f e)) ->
  exists rest, snd (catch_ p f w log) = (log ++ first ++ rest)%list.
Proof.
  intros [rest Hp] Hf; unfold catch_.
  destruct (p w log) as [[a|e|] log']; simpl in Hp; subst log'.
  - now exists rest.
  - destruct (Hf e w (log ++ first ++ rest)%list) as [more Hmore].
    exists (rest ++ more)%list; now rewrite Hmore, <- !app_assoc.
  - now exists rest.
Qed.

Lemma when_emit_run (present : bool) (verb : string)
    (arguments : list string) (w : World) (log : list Event) :
  when (negb present) (emit verb arguments) w log =
  (Fulfilled tt,
   (log ++ (if present then [] else [Emitted verb arguments]))%list).
Proof.
  destruct present; simpl; [now rewrite app_nil_r | reflexivity].
Qed.

(** Whatever the validation found, the handler goes on to call the
    device-address service: the events of the turn are the re-prompts of
    the validation, then that request, then the rest of the chain. *)
Lemma busy_handler_always_requests_address (w : World) (ev : IntentEvent) :
  exists rest,
    turn w ev =
    (validationEmits ev
     ++ Requested (Http.EchoAddress (deviceId ev) (consentToken ev))
     :: rest)%list.
Proof.
  unfold turn, slackBusyIntentHandler; cbv zeta.
  unfold then_ at 1 2 3; rewrite !when_emit_run.
  cbn [app]; rewrite <- app_assoc; fold (validationEmits ev).
  change (validationEmits ev
          ++ Requested (Http.EchoAddress (deviceId ev) (consentToken ev))
          :: ?r)%list
    with (validationEmits ev
          ++ [Requested (Http.EchoAddress (deviceId ev) (consentToken ev))]
          ++ r)%list.
  apply catch_keeps_first; [|intro; auto with promise].
  do 3 (apply then_keeps_first; [|intro; repeat extends_step]).
  unfold getEchoUTCOffset.
  do 2 (apply then_keeps_first; [|intro; auto with promise]).
  exists []; rewrite getEchoAddress_run; reflexivity.
Qed.

(** C8: a busy/snooze request without an access token (status and time
    present).  The handler emits the link-account response and does not end
    the turn: it calls the device-address, geocoding, timezone and snooze
    services and emits a second response. *)
Theorem busy_handler_falls_through :
  missing (accessToken Examples.notLinked)
  /\ turn Examples.allGood Examples.notLinked =
     [Emitted ":tellWithLinkAccountCard" [linkAccountSpeech];
      Requested (Http.EchoAddress (Some "amzn1.ask.device.A1")
                                  (Some "consent"));
      Requested (Http.Geocode "20003 US");
      Requested (Http.Timezone Examples.washington 1496322000);
      Requested (Http.SetSnooze 240 None);
      Emitted ":tell" [snoozePrefix ++ "not_authed"]]
  /\ List.length (emitsOf (turn Examples.allGood Examples.notLinked)) = 2%nat
  /\ List.length (requestsOf (turn Examples.allGood Examples.notLinked)) = 4%nat.
Proof.
  repeat split.
Qed.

(** With nothing missing the turn makes its five calls and emits once. *)
Lemma busy_handler_success :
  validationEmits Examples.linked = []
  /\ turn Examples.allGood Examples.linked =
     [Requested (Http.EchoAddress (Some "amzn1.ask.device.A1")
                                  (Some "consent"));
      Requested (Http.Geocode "20003 US");
      Requested (Http.Timezone Examples.washington 1496322000);
      Requested (Http.SetSnooze 240 (Some "xoxp-1"));
      Requested (Http.SetProfile (mkProfile "in a meeting" ":calendar:")
                                 (Some "xoxp-1"));
      Emitted ":tell" [confirmationPrefix ++ "1:00 pm."]].
Proof.
  repeat split.
Qed.

(** A missing status slot: the re-prompt is emitted, the chain runs all the
    same up to the snooze, and the mapper's failure on [undefined] is
    spoken as a second response. *)
Lemma busy_handler_missing_status :
  missing (statusSlot Examples.noStatus)
  /\ turn Examples.allGood Examples.noStatus =
     [Emitted ":ask" [noStatusSpeech; repromptSpeech];
      Requested (Http.EchoAddress (Some "amzn1.ask.device.A1")
                                  (Some "consent"));
      Requested (Http.Geocode "20003 US");
      Requested (Http.Timezone Examples.washington 1496322000);
      Requested (Http.SetSnooze 240 (Some "xoxp-1"));
      Emitted ":tell" [errorMessage (TypeError "match")]].
Proof.
  repeat split.
Qed.

(** ** More on the Time Normalizer and the Status Mapper *)

(** X1: Normalizing twice is normalizing once: no clock string the normalizer
    produces is itself a token. *)
Theorem normalizeAmazonTime_idempotent :
  forall s : string,
    normalizeAmazonTime (normalizeAmazonTime s) = normalizeAmazonTime s.
Proof.
  intros s; unfold normalizeAmazonTime at 2 3.
  destruct (String.eqb s "MO") eqn:E1; [reflexivity|].
  destruct (String.eqb s "AF") eqn:E2; [reflexivity|].
  destruct (String.eqb s "EV") eqn:E3; [reflexivity|].
  destruct (String.eqb s "NI") eqn:E4; [reflexivity|].
  unfold normalizeAmazonTime; now rewrite E1, E2, E3, E4.
Qed.

(** X2: The mapper never rewrites the text, except into "Do not disturb" for a
    status that contains "busy". *)
Theorem emojifyStatus_text :
  forall status : string,
    status_text (emojifyStatus status) = status
    \/ (emojifyStatus status = mkProfile "Do not disturb" ":no_entry_sign:"
        /\ JsString.Occurs "busy" status).
Proof.
  intros status; unfold emojifyStatus.
  destruct (JsString.includes "lunch" status); [now left|].
  destruct (JsString.includes "coffee" status); [now left|].
  destruct (JsString.includes "busy" status) eqn:Hbusy.
  - right; split; [reflexivity | now apply includes_occurs].
  - left.
    repeat match goal with
           | |- context [JsString.includes ?kw status] =>
               destruct (JsString.includes kw status); [reflexivity|]
           end.
    reflexivity.
Qed.

(** ** More on the Offset-Aware Duration Calculator *)

Lemma getMinutesUntil_malformed (h : Host) (time : string) (offset : Z) :
  Moment.parseHHmm time = None -> getMinutesUntil h time offset = None.
Proof.
  intros Hparse.
  unfold getMinutesUntil, requestedMoment, Moment.parseTodayUtc.
  now rewrite Hparse.
Qed.

Lemma targetInstant_utcHost (ms H M offset : Z) :
  targetInstant (utcHost ms) H M offset
  = Moment.msPerDay * (ms / Moment.msPerDay)
    + (60 * H + M) * Moment.msPerMinute
    - Moment.offsetMinutes offset * Moment.msPerMinute.
Proof.
  unfold targetInstant, utcHost, Moment.startOfUtcDay; cbn [clock zoneOffset].
  lia.
Qed.

(** X3: On a host in UTC the result depends on the time of day only: moving
    the clock by whole days does not change it. *)
Theorem getMinutesUntil_day_invariant :
  forall (ms days : Z) (time : string) (offset : Z),
    getMinutesUntil (utcHost (ms + days * Moment.msPerDay)) time offset
    = getMinutesUntil (utcHost ms) time offset.
Proof.
  intros ms days time offset.
  destruct (Moment.parseHHmm time) as [[H M]|] eqn:Hparse.
  - rewrite !(getMinutesUntil_closed_form _ time offset H M Hparse).
    rewrite !targetInstant_utcHost; cbn [clock utcHost].
    assert (Hdiv : (ms + days * Moment.msPerDay) / Moment.msPerDay
                   = ms / Moment.msPerDay + days)
      by (apply Z.div_add; unfold Moment.msPerDay; lia).
    rewrite Hdiv; f_equal.
    set (T := Moment.msPerDay * (ms / Moment.msPerDay)
              + (60 * H + M) * Moment.msPerMinute
              - Moment.offsetMinutes offset * Moment.msPerMinute).
    replace (Moment.msPerDay * (ms / Moment.msPerDay + days)
             + (60 * H + M) * Moment.msPerMinute
             - Moment.offsetMinutes offset * Moment.msPerMinute)
      with (T + days * Moment.msPerDay) by (unfold T; lia).
    rewrite !Z.gtb_ltb.
    destruct (Z.ltb_spec T ms), (Z.ltb_spec (T + days * Moment.msPerDay)
                                           (ms + days * Moment.msPerDay));
      try lia; f_equal; lia.
  - now rewrite !getMinutesUntil_malformed.
Qed.

(** X4: On a host in UTC, at an offset west of UTC or zero, the result is never
    negative. *)
Theorem getMinutesUntil_west_nonnegative :
  forall (ms : Z) (time : string) (offset H M : Z),
    Moment.parseHHmm time = Some (H, M) ->
    offset <= 0 ->
    exists minutes,
      getMinutesUntil (utcHost ms) time offset = Some minutes
      /\ 0 <= minutes.
Proof.
  intros ms time offset H M Hparse Hwest.
  rewrite (getMinutesUntil_closed_form _ time offset H M Hparse).
  eexists; split; [reflexivity|].
  apply parseHHmm_range in Hparse.
  assert (Hoff : Moment.offsetMinutes offset <= 0)
    by (unfold Moment.offsetMinutes; destruct (Z.abs offset <? 16); lia).
  rewrite targetInstant_utcHost; cbn [clock utcHost].
  unfold Moment.msPerDay, Moment.msPerMinute in *.
  destruct (Z.gtb_spec ms
              (86400000 * (ms / 86400000) + (60 * H + M) * 60000
               - Moment.offsetMinutes offset * 60000));
    apply Z.quot_pos; Z.to_euclidean_division_equations; lia.
Qed.

Lemma getMinutesUntil_west_nonnegative_witness :
  exists minutes,
    getMinutesUntil (utcHost Examples.shortlyAfterMidnightUtc) "21:00" (-300)
    = Some minutes
    /\ 0 <= minutes.
Proof.
  apply (getMinutesUntil_west_nonnegative
           Examples.shortlyAfterMidnightUtc "21:00" (-300) 21 0).
  - reflexivity.
  - lia.
Defined.

(** X5: On a host in UTC, at an offset east of UTC or zero, the result is
    always less than a day. *)
Theorem getMinutesUntil_east_below_a_day :
  forall (ms : Z) (time : string) (offset H M : Z),
    Moment.parseHHmm time = Some (H, M) ->
    0 <= offset ->
    exists minutes,
      getMinutesUntil (utcHost ms) time offset = Some minutes
      /\ minutes < 1440.
Proof.
  intros ms time offset H M Hparse Heast.
  rewrite (getMinutesUntil_closed_form _ time offset H M Hparse).
  eexists; split; [reflexivity|].
  apply parseHHmm_range in Hparse.
  assert (Hoff : 0 <= Moment.offsetMinutes offset)
    by (unfold Moment.offsetMinutes; destruct (Z.abs offset <? 16); lia).
  rewrite targetInstant_utcHost; cbn [clock utcHost].
  unfold Moment.msPerDay, Moment.msPerMinute in *.
  destruct (Z.gtb_spec ms
              (86400000 * (ms / 86400000) + (60 * H + M) * 60000
               - Moment.offsetMinutes offset * 60000));
    Z.to_euclidean_division_equations; lia.
Qed.

Lemma getMinutesUntil_east_below_a_day_witness :
  exists minutes,
    getMinutesUntil (utcHost Examples.lateEveningUtc) "00:30" 600
    = Some minutes
    /\ minutes < 1440.
Proof.
  apply (getMinutesUntil_east_below_a_day
           Examples.lateEveningUtc "00:30" 600 0 30).
  - reflexivity.
  - lia.
Defined.

(** X6: On a host in UTC, while the clock shows the same date at the offset as
    in UTC, the result is the time from the clock's reading at the offset
    to the next occurrence of the requested clock time, in whole minutes;
    it lies in [0, 1440). *)
Theorem getMinutesUntil_same_date :
  forall (ms : Z) (time : string) (offset H M : Z),
    Moment.parseHHmm time = Some (H, M) ->
    sameDateAsUtc (utcHost ms) offset ->
    let wait := ((60 * H + M) * Moment.msPerMinute
                 - localMillis (utcHost ms) offset) mod Moment.msPerDay in
    getMinutesUntil (utcHost ms) time offset
    = Some (wait / Moment.msPerMinute)
    /\ 0 <= wait / Moment.msPerMinute < 1440.
Proof.
  intros ms time offset H M Hparse Hsame wait.
  rewrite (getMinutesUntil_closed_form _ time offset H M Hparse).
  apply parseHHmm_range in Hparse.
  assert (Hwait : 0 <= wait < Moment.msPerDay)
    by (apply Z.mod_pos_bound; unfold Moment.msPerDay; lia).
  split.
  2:{ unfold Moment.msPerDay, Moment.msPerMinute in *.
      Z.to_euclidean_division_equations; lia. }
  f_equal.
  rewrite targetInstant_utcHost; cbn [clock utcHost].
  unfold sameDateAsUtc, localMillis, Moment.startOfUtcDay in *.
  cbn [clock utcHost] in *.
  set (off := Moment.offsetMinutes offset) in *.
  set (D := Moment.msPerDay * (ms / Moment.msPerDay)) in *.
  assert (Hlocal : 0 <= ms + off * Moment.msPerMinute - D < Moment.msPerDay).
  { rewrite <- Hsame.
    pose proof (Z.mod_pos_bound (ms + off * Moment.msPerMinute)
                  Moment.msPerDay eq_refl) as Hm.
    rewrite Z.mod_eq in Hm by (unfold Moment.msPerDay; lia).
    lia. }
  destruct (Z.gtb_spec ms (D + (60 * H + M) * Moment.msPerMinute
                           - off * Moment.msPerMinute)) as [Hgt|Hle].
  - assert (Hw : wait = D + (60 * H + M) * Moment.msPerMinute
                        - off * Moment.msPerMinute + Moment.msPerDay - ms).
    { unfold wait.
      replace ((60 * H + M) * Moment.msPerMinute
               - (ms + off * Moment.msPerMinute - D))
        with (D + (60 * H + M) * Moment.msPerMinute
              - off * Moment.msPerMinute + Moment.msPerDay - ms
              + (-1) * Moment.msPerDay) by lia.
      rewrite Z.mod_add by (unfold Moment.msPerDay; lia).
      apply Z.mod_small; unfold Moment.msPerDay, Moment.msPerMinute in *; lia. }
    rewrite <- Hw; apply Z.quot_div_nonneg; unfold Moment.msPerMinute; lia.
  - assert (Hw : wait = D + (60 * H + M) * Moment.msPerMinute
                        - off * Moment.msPerMinute - ms).
    { unfold wait.
      replace ((60 * H + M) * Moment.msPerMinute
               - (ms + off * Moment.msPerMinute - D))
        with (D + (60 * H + M) * Moment.msPerMinute
              - off * Moment.msPerMinute - ms) by lia.
      apply Z.mod_small; unfold Moment.msPerDay, Moment.msPerMinute in *; lia. }
    rewrite <- Hw; apply Z.quot_div_nonneg; unfold Moment.msPerMinute; lia.
Qed.

Lemma getMinutesUntil_same_date_witness :
  let wait := ((60 * 9 + 0) * Moment.msPerMinute
               - localMillis (utcHost Examples.middayUtc) (-180))
              mod Moment.msPerDay in
  getMinutesUntil (utcHost Examples.middayUtc) "09:00" (-180)
  = Some (wait / Moment.msPerMinute)
  /\ 0 <= wait / Moment.msPerMinute < 1440.
Proof.
  apply (getMinutesUntil_same_date Examples.middayUtc "09:00" (-180) 9 0);
    reflexivity.
Defined.

(** X7: An offset of less than sixteen is taken for hours: the result is the
    one for sixty times the offset. *)
Theorem getMinutesUntil_small_offset_is_hours :
  forall (h : Host) (time : string) (offset : Z),
    Z.abs offset < 16 ->
    getMinutesUntil h time offset = getMinutesUntil h time (60 * offset).
Proof.
  intros h time offset Hsmall.
  assert (Hoff : Moment.offsetMinutes offset
                 = Moment.offsetMinutes (60 * offset)).
  { unfold Moment.offsetMinutes.
    destruct (Z.ltb_spec (Z.abs offset) 16); [|lia].
    destruct (Z.ltb_spec (Z.abs (60 * offset)) 16); lia. }
  unfold getMinutesUntil, requestedMoment, nowMoment, Moment.utcOffset.
  now rewrite Hoff.
Qed.

Lemma getMinutesUntil_small_offset_is_hours_witness :
  getMinutesUntil (utcHost Examples.middayUtc) "09:00" (-5)
  = getMinutesUntil (utcHost Examples.middayUtc) "09:00" (60 * -5).
Proof.
  apply (getMinutesUntil_small_offset_is_hours
           (utcHost Examples.middayUtc) "09:00" (-5)).
  reflexivity.
Defined.

(** ** More on the Location/Timezone Resolver *)

Section ResolverRuns.

Variable w : World.
Variables device_id consent_token : option string.

Let addressRequest := Http.EchoAddress device_id consent_token.
Let addressResponse := respond w addressRequest.
Let location :=
  JsString.interpolate (Http.postalCode (Http.body addressResponse)) ++ " "
  ++ JsString.interpolate (Http.countryCode (Http.body addressResponse)).
Let geocodeResponse := respond w (Http.Geocode location).
Let timestamp := (clock (host w) + 500) / 1000.

(** The chain, stage by stage. *)
Lemma getEchoUTCOffset_run (log : list Event) :
  getEchoUTCOffset device_id consent_token w log =
  if Http.statusCode addressResponse =? 200 then
    if (Http.statusCode geocodeResponse =? 200)
       && isOK (Http.status (Http.body geocodeResponse)) then
      match Http.results (Http.body geocodeResponse) with
      | Some (place :: _) =>
          let zone := respond w (Http.Timezone place timestamp) in
          (if (Http.statusCode zone =? 200)
              && isOK (Http.status (Http.body zone))
           then Fulfilled
                  (PrimFloat.div
                     (PrimFloat.add
                        (JsNumber.toNumber (Http.rawOffset (Http.body zone)))
                        (JsNumber.toNumber (Http.dstOffset (Http.body zone))))
                     60%float)
           else Rejected (Error (timezonePrefix ++ JsString.interpolate
                                   (Http.status (Http.body zone)))),
           (log ++ [Requested addressRequest;
                    Requested (Http.Geocode location);
                    Requested (Http.Timezone place timestamp)])%list)
      | Some [] =>
          (Rejected (TypeError "geometry"),
           (log ++ [Requested addressRequest;
                    Requested (Http.Geocode location)])%list)
      | None =>
          (Rejected (TypeError "0"),
           (log ++ [Requested addressRequest;
                    Requested (Http.Geocode location)])%list)
      end
    else
      (Rejected (Error (geocodePrefix ++ JsString.interpolate
                          (Http.status (Http.body geocodeResponse)))),
       (log ++ [Requested addressRequest;
                Requested (Http.Geocode location)])%list)
  else
    (Rejected (Error permissionMessage),
     (log ++ [Requested addressRequest])%list).
Proof.
  unfold getEchoUTCOffset, then_.
  rewrite getEchoAddress_run.
  fold addressRequest addressResponse.
  destruct (Http.statusCode addressResponse =? 200); [|reflexivity].
  fold location; rewrite geocodeLocation_run; cbv zeta.
  fold geocodeResponse.
  destruct ((Http.statusCode geocodeResponse =? 200)
            && isOK (Http.status (Http.body geocodeResponse)));
    [|now rewrite <- app_assoc].
  destruct (Http.results (Http.body geocodeResponse)) as [[|place others]|];
    cbn [hd_error].
  - unfold getUTCOffset, reject; now rewrite <- app_assoc.
  - rewrite getUTCOffset_run; cbv zeta; fold timestamp.
    now rewrite <- !app_assoc.
  - now rewrite <- app_assoc.
Qed.

(** The chain does not look at the log it starts from. *)
Lemma getEchoUTCOffset_any_log (log : list Event) :
  getEchoUTCOffset device_id consent_token w log =
  (resolverOutcome w device_id consent_token,
   (log ++ resolverRequests w device_id consent_token)%list).
Proof.
  unfold resolverOutcome, resolverRequests.
  rewrite !getEchoUTCOffset_run; cbv zeta.
  destruct (Http.statusCode addressResponse =? 200); [|reflexivity].
  destruct ((Http.statusCode geocodeResponse =? 200)
            && isOK (Http.status (Http.body geocodeResponse)));
    [|reflexivity].
  now destruct (Http.results (Http.body geocodeResponse))
    as [[|place others]|].
Qed.

(** X8: When the three services answer with success, the chain is fulfilled
    with [(rawOffset + dstOffset) / 60] after exactly three calls, in
    order: the address of the device, the geocoding of "postal code,
    space, country code", and the timezone at the first geocoding result;
    the timestamp sent is the clock's reading rounded to the second. *)
Theorem getEchoUTCOffset_success :
  forall (log : list Event) (place : Http.GeoResult)
         (others : list Http.GeoResult),
    let zone := respond w (Http.Timezone place timestamp) in
    Http.statusCode addressResponse = 200 ->
    Http.statusCode geocodeResponse = 200 ->
    Http.status (Http.body geocodeResponse) = Some "OK" ->
    Http.results (Http.body geocodeResponse) = Some (place :: others) ->
    Http.statusCode zone = 200 ->
    Http.status (Http.body zone) = Some "OK" ->
    getEchoUTCOffset device_id consent_token w log =
    (Fulfilled
       (PrimFloat.div
          (PrimFloat.add
             (JsNumber.toNumber (Http.rawOffset (Http.body zone)))
             (JsNumber.toNumber (Http.dstOffset (Http.body zone))))
          60%float),
     (log ++ [Requested addressRequest;
              Requested (Http.Geocode location);
              Requested (Http.Timezone place timestamp)])%list)
    /\ 1000 * timestamp - 500 <= clock (host w) < 1000 * timestamp + 500.
Proof.
  intros log place others zone Ha Hg Hgs Hres Hz Hzs.
  split.
  - rewrite getEchoUTCOffset_run; cbv zeta.
    apply Z.eqb_eq in Ha, Hg, Hz; apply isOK_iff in Hgs, Hzs.
    rewrite Ha, Hg, Hgs, Hres; cbn [andb]; fold zone.
    now rewrite Hz, Hzs.
  - unfold timestamp; Z.to_euclidean_division_equations; lia.
Qed.

(** X9: A geocoding answer that reports success without a first result (an
    empty or absent [results]) makes the chain reject with the engine's
    TypeError; the timezone service is not called. *)
Theorem getEchoUTCOffset_no_result :
  forall log : list Event,
    Http.statusCode addressResponse = 200 ->
    Http.statusCode geocodeResponse = 200 ->
    Http.status (Http.body geocodeResponse) = Some "OK" ->
    (Http.results (Http.body geocodeResponse) = Some []
     \/ Http.results (Http.body geocodeResponse) = None) ->
    exists property,
      getEchoUTCOffset device_id consent_token w log =
      (Rejected (TypeError property),
       (log ++ [Requested addressRequest;
                Requested (Http.Geocode location)])%list).
Proof.
  intros log Ha Hg Hgs Hres.
  rewrite getEchoUTCOffset_run.
  apply Z.eqb_eq in Ha, Hg; apply isOK_iff in Hgs.
  rewrite Ha, Hg, Hgs; cbn [andb].
  destruct Hres as [-> | ->]; eexists; reflexivity.
Qed.

End ResolverRuns.

Lemma getEchoUTCOffset_success_witness :
  getEchoUTCOffset (Some "device") (Some "consent") Examples.allGood [] =
  (Fulfilled
     (PrimFloat.div (PrimFloat.add (-18000) 3600) 60),
   [Requested (Http.EchoAddress (Some "device") (Some "consent"));
    Requested (Http.Geocode "20003 US");
    Requested (Http.Timezone Examples.washington 1496322000)])
  /\ 1000 * 1496322000 - 500 <= Examples.middayUtc < 1000 * 1496322000 + 500.
Proof.
  apply (getEchoUTCOffset_success Examples.allGood (Some "device")
           (Some "consent") [] Examples.washington []); reflexivity.
Defined.

Lemma getEchoUTCOffset_no_result_witness :
  exists property,
    getEchoUTCOffset (Some "device") (Some "consent")
      MoreExamples.geocodeNoResult [] =
    (Rejected (TypeError property),
     [Requested (Http.EchoAddress (Some "device") (Some "consent"));
      Requested (Http.Geocode "20003 US")]).
Proof.
  apply (getEchoUTCOffset_no_result MoreExamples.geocodeNoResult
           (Some "device") (Some "consent") []);
    [reflexivity | reflexivity | reflexivity | left; reflexivity].
Defined.

(** ** The order of the calls *)

Lemma servicesCalled_app (a b : list Event) :
  servicesCalled (a ++ b) = (servicesCalled a ++ servicesCalled b)%list.
Proof.
  induction a as [|[r|verb arguments] a IH]; simpl; now rewrite ?IH.
Qed.

Lemma firstn_of_prefix {A} (n : nat) (l1 l2 : list A) :
  exists m, firstn n l1 = firstn m (l1 ++ l2)%list.
Proof.
  destruct (Nat.le_gt_cases n (List.length l1)) as [Hle|Hgt].
  - exists n; rewrite firstn_app.
    replace (n - List.length l1)%nat with 0%nat by lia.
    now rewrite app_nil_r.
  - exists (List.length l1); rewrite firstn_app, Nat.sub_diag, firstn_all.
    cbn [firstn]; rewrite app_nil_r; apply firstn_all2; lia.
Qed.

Lemma follows_resolve {A} (a : A) : follows [] (resolve a).
Proof.
  intros w log; exists []; cbn; rewrite app_nil_r.
  repeat split; now exists 0%nat.
Qed.

Lemma follows_getHost : follows [] getHost.
Proof.
  intros w log; exists []; cbn; rewrite app_nil_r.
  repeat split; now exists 0%nat.
Qed.

Lemma follows_reject {A} (plan : list Service) (e : JsError) :
  follows plan (@reject A e).
Proof.
  intros w log; exists []; cbn; rewrite app_nil_r.
  repeat split; [now exists 0%nat | discriminate].
Qed.

Lemma follows_unmodelled {A} (plan : list Service) :
  follows plan (@unmodelled A).
Proof.
  intros w log; exists []; cbn; rewrite app_nil_r.
  repeat split; [now exists 0%nat | discriminate].
Qed.

Lemma follows_request (r : Http.Request) :
  follows [serviceOf r] (request r).
Proof.
  intros w log; exists [Requested r]; cbn.
  repeat split; now exists 1%nat.
Qed.

Lemma follows_emit (verb : string) (arguments : list string) :
  follows [] (emit verb arguments).
Proof.
  intros w log; exists [Emitted verb arguments]; cbn.
  repeat split; now exists 0%nat.
Qed.

Lemma follows_then {A B} (plan1 plan2 : list Service)
    (p : Promise A) (f : A -> Promise B) :
  follows plan1 p -> (forall a, follows plan2 (f a)) ->
  follows (plan1 ++ plan2) (then_ p f).
Proof.
  intros Hp Hf w log; unfold then_.
  destruct (Hp w log) as (added & Hsnd & [n Hn] & Hful).
  destruct (p w log) as [[a|e|] log']; cbn [fst snd] in *; subst log'.
  - specialize (Hful a eq_refl).
    destruct (Hf a w (log ++ added)%list) as (more & Hsnd2 & [m Hm] & Hful2).
    exists (added ++ more)%list; split; [now rewrite Hsnd2, app_assoc|].
    rewrite servicesCalled_app, Hful; split.
    + exists (List.length plan1 + m)%nat; now rewrite Hm, firstn_app_2.
    + intros b Hb; now rewrite (Hful2 b Hb).
  - exists added; split; [reflexivity|]; split; [|discriminate].
    destruct (firstn_of_prefix n plan1 plan2) as [m Hm].
    exists m; now rewrite Hn.
  - exists added; split; [reflexivity|]; split; [|discriminate].
    destruct (firstn_of_prefix n plan1 plan2) as [m Hm].
    exists m; now rewrite Hn.
Qed.

Lemma follows_getEchoAddress (d c : option string) :
  follows [AddressService] (getEchoAddress d c).
Proof.
  apply (follows_then [AddressService] []); [apply follows_request|].
  intros response; destruct (Http.statusCode response =? 200).
  - apply follows_resolve.
  - apply follows_reject.
Qed.

Lemma follows_geocodeLocation (location : string) :
  follows [GeocodeService] (geocodeLocation location).
Proof.
  apply (follows_then [GeocodeService] []); [apply follows_request|].
  intros response.
  destruct ((Http.statusCode response =? 200)
            && isOK (Http.status (Http.body response)));
    [|apply follows_reject].
  destruct (Http.results (Http.body response));
    [apply follows_resolve | apply follows_reject].
Qed.

Lemma follows_getUTCOffset (location : option Http.GeoResult) :
  follows [TimezoneService] (getUTCOffset location).
Proof.
  destruct location as [place|]; [|apply follows_reject].
  apply (follows_then [] [TimezoneService]); [apply follows_getHost|].
  intros h.
  apply (follows_then [TimezoneService] []); [apply follows_request|].
  intros response.
  destruct ((Http.statusCode response =? 200)
            && isOK (Http.status (Http.body response)));
    [apply follows_resolve | apply follows_reject].
Qed.

Lemma follows_getEchoUTCOffset (d c : option string) :
  follows resolverPlan (getEchoUTCOffset d c).
Proof.
  apply (follows_then [AddressService; GeocodeService] [TimezoneService]);
    [|apply follows_getUTCOffset].
  apply (follows_then [AddressService] [GeocodeService]);
    [apply follows_getEchoAddress | apply follows_geocodeLocation].
Qed.

Lemma follows_setSlackDND (minutes : Z) (token : option string) :
  follows [SnoozeService] (setSlackDND minutes token).
Proof.
  apply (follows_then [SnoozeService] []); [apply follows_request|].
  intros response.
  destruct (negb (Http.statusCode response =? 200)
            || negb (Http.ok (Http.body response)));
    [apply follows_reject | apply follows_resolve].
Qed.

Lemma follows_setSlackStatus (profile : Profile) (token : option string) :
  follows [ProfileService] (setSlackStatus profile token).
Proof.
  apply (follows_then [ProfileService] []); [apply follows_request|].
  intros response.
  destruct (negb (Http.statusCode response =? 200)
            || negb (Http.ok (Http.body response)));
    [apply follows_reject | apply follows_resolve].
Qed.

Lemma follows_setSlackDNDUntil (time : option string) (offset : float)
    (token : option string) :
  follows [SnoozeService] (setSlackDNDUntil time offset token).
Proof.
  apply (follows_then [] [SnoozeService]); [apply follows_getHost|].
  intros h.
  destruct time as [t|]; [|apply follows_unmodelled].
  destruct (JsNumber.toZ offset) as [minutesEast|];
    [|apply follows_unmodelled].
  destruct (getMinutesUntil h (normalizeAmazonTime t) minutesEast);
    [apply follows_setSlackDND | apply follows_unmodelled].
Qed.

Lemma follows_busyAfterOffset (ev : IntentEvent) (offset : float) :
  follows [SnoozeService; ProfileService] (busyAfterOffset ev offset).
Proof.
  apply (follows_then [SnoozeService; ProfileService] []).
  - apply (follows_then [SnoozeService] [ProfileService]);
      [apply follows_setSlackDNDUntil|].
    intros _; destruct (statusSlot ev);
      [apply follows_setSlackStatus | apply follows_reject].
  - intros _; destruct (timeSlot ev) as [t|]; [|apply follows_unmodelled].
    destruct (Moment.format_h_mm_a t);
      [apply follows_emit | apply follows_unmodelled].
Qed.

(** ** Responses *)

Lemma emitsOf_app (a b : list Event) :
  emitsOf (a ++ b) = (emitsOf a ++ emitsOf b)%list.
Proof.
  apply filter_app.
Qed.

Lemma quiet_resolve {A} (a : A) : quiet (resolve a).
Proof. intros w log; exists []; cbn; now rewrite app_nil_r. Qed.

Lemma quiet_reject {A} (e : JsError) : quiet (@reject A e).
Proof. intros w log; exists []; cbn; now rewrite app_nil_r. Qed.

Lemma quiet_unmodelled {A} : quiet (@unmodelled A).
Proof. intros w log; exists []; cbn; now rewrite app_nil_r. Qed.

Lemma quiet_getHost : quiet getHost.
Proof. intros w log; exists []; cbn; now rewrite app_nil_r. Qed.

Lemma quiet_request (r : Http.Request) : quiet (request r).
Proof. intros w log; now exists [Requested r]. Qed.

Lemma quiet_then {A B} (p : Promise A) (f : A -> Promise B) :
  quiet p -> (forall a, quiet (f a)) -> quiet (then_ p f).
Proof.
  intros Hp Hf w log; unfold then_.
  destruct (Hp w log) as (added & Hsnd & Hquiet).
  destruct (p w log) as [[a|e|] log']; cbn [snd] in Hsnd; subst log'.
  - destruct (Hf a w (log ++ added)%list) as (more & Hsnd2 & Hquiet2).
    exists (added ++ more)%list; split; [now rewrite Hsnd2, app_assoc|].
    now rewrite emitsOf_app, Hquiet, Hquiet2.
  - now exists added.
  - now exists added.
Qed.

Ltac quiet_step :=
  first [ apply quiet_then; [|intro]
        | apply quiet_resolve | apply quiet_reject | apply quiet_unmodelled
        | apply quiet_getHost | apply quiet_request
        | match goal with
          | |- quiet (match ?x with _ => _ end) => destruct x
          | |- quiet (if ?c then _ else _) => destruct c
          end ].

Lemma quiet_getEchoUTCOffset (d c : option string) :
  quiet (getEchoUTCOffset d c).
Proof.
  unfold getEchoUTCOffset, getEchoAddress, geocodeLocation.
  repeat quiet_step; unfold getUTCOffset; repeat quiet_step.
Qed.

Lemma quiet_setSlackDNDUntil (time : option string) (offset : float)
    (token : option string) :
  quiet (setSlackDNDUntil time offset token).
Proof.
  unfold setSlackDNDUntil; repeat quiet_step.
Qed.

Lemma quiet_setSlackStatus (profile : Profile) (token : option string) :
  quiet (setSlackStatus profile token).
Proof.
  unfold setSlackStatus; repeat quiet_step.
Qed.

(** X10: The location/timezone chain calls the address, geocoding and timezone
    services in this order, each at most once and all three when it is
    fulfilled; it calls no other service and emits no response. *)
Theorem getEchoUTCOffset_plan :
  forall device_id consent_token : option string,
    follows [AddressService; GeocodeService; TimezoneService]
            (getEchoUTCOffset device_id consent_token)
    /\ quiet (getEchoUTCOffset device_id consent_token).
Proof.
  intros d c; split;
    [apply follows_getEchoUTCOffset | apply quiet_getEchoUTCOffset].
Qed.

(** ** More on the busy/snooze intent *)

Lemma slack_refusal (response : Http.Response) :
  negb (Http.statusCode response =? 200)
  || negb (Http.ok (Http.body response))
  = negb (slackAccepts response).
Proof.
  unfold slackAccepts; now rewrite negb_andb.
Qed.

Lemma setSlackDND_run (minutes : Z) (token : option string)
    (w : World) (log : list Event) :
  setSlackDND minutes token w log =
  (let response := respond w (Http.SetSnooze minutes token) in
   if slackAccepts response then Fulfilled tt
   else Rejected (Error (snoozePrefix ++ JsString.interpolate
                           (Http.error (Http.body response)))),
   (log ++ [Requested (Http.SetSnooze minutes token)])%list).
Proof.
  unfold setSlackDND, then_, request, resolve, reject; cbv zeta.
  rewrite slack_refusal.
  now destruct (slackAccepts (respond w (Http.SetSnooze minutes token))).
Qed.

Lemma setSlackStatus_run (profile : Profile) (token : option string)
    (w : World) (log : list Event) :
  setSlackStatus profile token w log =
  (let response := respond w (Http.SetProfile profile token) in
   if slackAccepts response then Fulfilled tt
   else Rejected (Error (statusPrefix ++ JsString.interpolate
                           (Http.error (Http.body response)))),
   (log ++ [Requested (Http.SetProfile profile token)])%list).
Proof.
  unfold setSlackStatus, then_, request, resolve, reject; cbv zeta.
  rewrite slack_refusal.
  now destruct (slackAccepts (respond w (Http.SetProfile profile token))).
Qed.

Lemma validationEmits_emits (ev : IntentEvent) :
  emitsOf (validationEmits ev) = validationEmits ev
  /\ servicesCalled (validationEmits ev) = [].
Proof.
  unfold validationEmits.
  now destruct (JsString.truthy (accessToken ev)),
    (JsString.truthy (statusSlot ev)), (JsString.truthy (timeSlot ev)).
Qed.

(** The handler is its validation, then the chain, then the steps after
    the offset, with the last step catching what was rejected. *)
Lemma busy_turn_unfold (w : World) (ev : IntentEvent) :
  turn w ev =
  snd (catch_ (then_ (getEchoUTCOffset (deviceId ev) (consentToken ev))
                     (busyAfterOffset ev))
              speakError w (validationEmits ev)).
Proof.
  unfold turn, slackBusyIntentHandler; cbv zeta.
  unfold then_ at 1 2 3; rewrite !when_emit_run.
  cbn [app]; rewrite <- app_assoc; fold (validationEmits ev).
  unfold catch_, busyAfterOffset, then_.
  now destruct (getEchoUTCOffset (deviceId ev) (consentToken ev) w
                  (validationEmits ev)) as [[offset|e|] log1].
Qed.

Lemma busy_turn_via_resolver (w : World) (ev : IntentEvent) :
  turn w ev =
  let log := (validationEmits ev
              ++ resolverRequests w (deviceId ev) (consentToken ev))%list in
  match resolverOutcome w (deviceId ev) (consentToken ev) with
  | Fulfilled offset => snd (catch_ (busyAfterOffset ev offset) speakError w log)
  | Rejected e => (log ++ [Emitted ":tell" [errorMessage e]])%list
  | Unmodelled => log
  end.
Proof.
  rewrite busy_turn_unfold; unfold catch_ at 1, then_ at 1.
  rewrite getEchoUTCOffset_any_log; cbv zeta.
  now destruct (resolverOutcome w (deviceId ev) (consentToken ev)).
Qed.

(** The steps after the offset, for a time that gives a duration. *)
Lemma busyAfterOffset_run (w : World) (ev : IntentEvent) (offset : float)
    (t : string) (minutesEast minutes : Z) (log : list Event) :
  timeSlot ev = Some t ->
  JsNumber.toZ offset = Some minutesEast ->
  getMinutesUntil (host w) (normalizeAmazonTime t) minutesEast = Some minutes ->
  busyAfterOffset ev offset w log =
  let snooze := Http.SetSnooze minutes (accessToken ev) in
  if slackAccepts (respond w snooze) then
    match statusSlot ev with
    | Some s =>
        let profile := Http.SetProfile (emojifyStatus s) (accessToken ev) in
        if slackAccepts (respond w profile) then
          match Moment.format_h_mm_a t with
          | Some shown =>
              (Fulfilled tt,
               (log ++ [Requested snooze; Requested profile;
                        Emitted ":tell" [(confirmationPrefix ++ shown ++ ".")%string]])
               %list)
          | None =>
              (Unmodelled, (log ++ [Requested snooze; Requested profile])%list)
          end
        else
          (Rejected (Error (statusPrefix ++ JsString.interpolate
                              (Http.error (Http.body (respond w profile))))),
           (log ++ [Requested snooze; Requested profile])%list)
    | None =>
        (Rejected (TypeError "match"), (log ++ [Requested snooze])%list)
    end
  else
    (Rejected (Error (snoozePrefix ++ JsString.interpolate
                        (Http.error (Http.body (respond w snooze))))),
     (log ++ [Requested snooze])%list).
Proof.
  intros Htime Heast Hminutes; cbv zeta.
  unfold busyAfterOffset, then_ at 1 2.
  unfold setSlackDNDUntil, then_ at 1, getHost.
  rewrite Htime, Heast, Hminutes, setSlackDND_run; cbv zeta.
  destruct (slackAccepts
              (respond w (Http.SetSnooze minutes (accessToken ev))));
    [|reflexivity].
  destruct (statusSlot ev) as [s|]; [|reflexivity].
  rewrite setSlackStatus_run; cbv zeta.
  destruct (slackAccepts
              (respond w (Http.SetProfile (emojifyStatus s) (accessToken ev))));
    [|now rewrite <- app_assoc].
  destruct (Moment.format_h_mm_a t); unfold emit, unmodelled;
    now rewrite <- !app_assoc.
Qed.

Lemma normalize_clock_time (s : string) (H M : Z) :
  Moment.parseHHmm s = Some (H, M) -> normalizeAmazonTime s = s.
Proof.
  intros Hparse.
  destruct s as [|c1 [|c2 [|c3 [|c4 [|c5 [|? ?]]]]]]; try discriminate Hparse.
  clear Hparse; unfold normalizeAmazonTime; cbn [String.eqb].
  repeat match goal with
         | |- context [Ascii.eqb ?a ?b] => destruct (Ascii.eqb a b)
         end; reflexivity.
Qed.

Section BusyTurn.

Variable w : World.
Variable ev : IntentEvent.

Let token := accessToken ev.
Let resolved := resolverRequests w (deviceId ev) (consentToken ev).
Let outcome := resolverOutcome w (deviceId ev) (consentToken ev).

(** X11: When the location/timezone chain rejects, the handler speaks the
    message of the error as its last response and calls neither Slack
    service. *)
Theorem busy_resolver_failure_is_spoken :
  forall e : JsError,
    outcome = Rejected e ->
    turn w ev =
    (validationEmits ev ++ resolved
     ++ [Emitted ":tell" [errorMessage e]])%list
    /\ (exists n, servicesCalled (turn w ev) = firstn n resolverPlan).
Proof.
  intros e Hout.
  assert (Hturn : turn w ev =
                  (validationEmits ev ++ resolved
                   ++ [Emitted ":tell" [errorMessage e]])%list).
  { rewrite busy_turn_via_resolver; cbv zeta.
    fold outcome resolved; rewrite Hout; now rewrite <- app_assoc. }
  split; [exact Hturn|].
  rewrite Hturn, !servicesCalled_app.
  destruct (validationEmits_emits ev) as [_ ->].
  destruct (follows_getEchoUTCOffset (deviceId ev) (consentToken ev) w [])
    as (added & Hsnd & [n Hn] & _).
  exists n; cbn [app servicesCalled] in *.
  unfold resolved, resolverRequests; rewrite Hsnd, Hn.
  now rewrite app_nil_r.
Qed.

(** X12: With a clock time in the time slot, a status in the status slot, a
    whole-minute offset and both Slack calls accepted, the handler snoozes
    for the minutes until that time at the offset, sets the profile the
    mapper gives for the status, and confirms with the 12-hour reading of
    the time. *)
Theorem busy_success_with_clock_time :
  forall (t s : string) (H M : Z) (offset : float)
         (minutesEast minutes : Z),
    timeSlot ev = Some t ->
    statusSlot ev = Some s ->
    Moment.parseHHmm t = Some (H, M) ->
    outcome = Fulfilled offset ->
    JsNumber.toZ offset = Some minutesEast ->
    getMinutesUntil (host w) t minutesEast = Some minutes ->
    slackAccepts (respond w (Http.SetSnooze minutes token)) = true ->
    slackAccepts (respond w (Http.SetProfile (emojifyStatus s) token)) = true ->
    exists shown,
      Moment.format_h_mm_a t = Some shown
      /\ turn w ev =
         (validationEmits ev ++ resolved
          ++ [Requested (Http.SetSnooze minutes token);
              Requested (Http.SetProfile (emojifyStatus s) token);
              Emitted ":tell"
                [(confirmationPrefix ++ shown ++ ".")%string]])%list.
Proof.
  intros t s H M offset minutesEast minutes Htime Hstatus Hparse Hout Heast
         Hminutes Hsnooze Hprofile.
  assert (Hshown : exists shown, Moment.format_h_mm_a t = Some shown)
    by (unfold Moment.format_h_mm_a; rewrite Hparse; eauto).
  destruct Hshown as [shown Hshown].
  exists shown; split; [exact Hshown|].
  rewrite busy_turn_via_resolver; cbv zeta.
  fold outcome resolved; rewrite Hout; unfold catch_.
  rewrite (busyAfterOffset_run w ev offset t minutesEast minutes _
             Htime Heast)
    by (rewrite (normalize_clock_time t H M Hparse); exact Hminutes).
  cbv zeta; fold token.
  rewrite Hsnooze, Hstatus, Hprofile, Hshown; cbn [snd].
  now rewrite <- app_assoc.
Qed.

(** X13: With a coarse token in the time slot the snooze runs until the token's
    clock time, but the confirmation is built from the token itself, which
    is no clock time: it reads "Invalid date". *)
Theorem busy_success_with_coarse_token :
  forall (p : CoarsePeriod) (s : string) (offset : float)
         (minutesEast minutes : Z),
    timeSlot ev = Some (slotToken p) ->
    statusSlot ev = Some s ->
    outcome = Fulfilled offset ->
    JsNumber.toZ offset = Some minutesEast ->
    getMinutesUntil (host w) (specifiedClock p) minutesEast = Some minutes ->
    slackAccepts (respond w (Http.SetSnooze minutes token)) = true ->
    slackAccepts (respond w (Http.SetProfile (emojifyStatus s) token)) = true ->
    turn w ev =
    (validationEmits ev ++ resolved
     ++ [Requested (Http.SetSnooze minutes token);
         Requested (Http.SetProfile (emojifyStatus s) token);
         Emitted ":tell"
           [(confirmationPrefix ++ "Invalid date.")%string]])%list.
Proof.
  intros p s offset minutesEast minutes Htime Hstatus Hout Heast Hminutes
         Hsnooze Hprofile.
  assert (Hnorm : normalizeAmazonTime (slotToken p) = specifiedClock p)
    by (destruct p; reflexivity).
  assert (Hshown : Moment.format_h_mm_a (slotToken p) = Some "Invalid date")
    by (destruct p; reflexivity).
  rewrite busy_turn_via_resolver; cbv zeta.
  fold outcome resolved; rewrite Hout; unfold catch_.
  rewrite (busyAfterOffset_run w ev offset (slotToken p) minutesEast minutes
             _ Htime Heast) by (rewrite Hnorm; exact Hminutes).
  cbv zeta; fold token.
  rewrite Hsnooze, Hstatus, Hprofile, Hshown; cbn [snd].
  now rewrite <- app_assoc.
Qed.

(** X14: When Slack refuses the snooze, the handler speaks Slack's error and
    never sets the status. *)
Theorem busy_snooze_refused :
  forall (t : string) (offset : float) (minutesEast minutes : Z),
    timeSlot ev = Some t ->
    outcome = Fulfilled offset ->
    JsNumber.toZ offset = Some minutesEast ->
    getMinutesUntil (host w) (normalizeAmazonTime t) minutesEast
    = Some minutes ->
    slackAccepts (respond w (Http.SetSnooze minutes token)) = false ->
    turn w ev =
    (validationEmits ev ++ resolved
     ++ [Requested (Http.SetSnooze minutes token);
         Emitted ":tell"
           [(snoozePrefix ++ JsString.interpolate
               (Http.error
                  (Http.body (respond w (Http.SetSnooze minutes token)))))
            %string]])
    %list.
Proof.
  intros t offset minutesEast minutes Htime Hout Heast Hminutes Hrefused.
  rewrite busy_turn_via_resolver; cbv zeta.
  fold outcome resolved; rewrite Hout; unfold catch_.
  rewrite (busyAfterOffset_run w ev offset t minutesEast minutes _
             Htime Heast Hminutes).
  cbv zeta; fold token; rewrite Hrefused.
  unfold speakError, emit; cbn [snd errorMessage].
  now rewrite <- !app_assoc.
Qed.

(** X15: When Slack accepts the snooze and refuses the status, the snooze stays
    set: the handler speaks Slack's error and undoes nothing. *)
Theorem busy_status_refused :
  forall (t s : string) (offset : float) (minutesEast minutes : Z),
    timeSlot ev = Some t ->
    statusSlot ev = Some s ->
    outcome = Fulfilled offset ->
    JsNumber.toZ offset = Some minutesEast ->
    getMinutesUntil (host w) (normalizeAmazonTime t) minutesEast
    = Some minutes ->
    slackAccepts (respond w (Http.SetSnooze minutes token)) = true ->
    slackAccepts (respond w (Http.SetProfile (emojifyStatus s) token))
    = false ->
    turn w ev =
    (validationEmits ev ++ resolved
     ++ [Requested (Http.SetSnooze minutes token);
         Requested (Http.SetProfile (emojifyStatus s) token);
         Emitted ":tell"
           [(statusPrefix ++ JsString.interpolate
               (Http.error
                  (Http.body
                     (respond w
                        (Http.SetProfile (emojifyStatus s) token)))))
            %string]])%list.
Proof.
  intros t s offset minutesEast minutes Htime Hstatus Hout Heast Hminutes
         Hsnooze Hrefused.
  rewrite busy_turn_via_resolver; cbv zeta.
  fold outcome resolved; rewrite Hout; unfold catch_.
  rewrite (busyAfterOffset_run w ev offset t minutesEast minutes _
             Htime Heast Hminutes).
  cbv zeta; fold token; rewrite Hsnooze, Hstatus, Hrefused.
  unfold speakError, emit; cbn [snd errorMessage].
  now rewrite <- !app_assoc.
Qed.

(** Once the five values are read, the calls in the log are an initial part
    of address, geocoding, timezone, snooze, profile, beginning with the
    address service. *)
Theorem busy_calls_in_order :
  exists n,
    (1 <= n <= 5)%nat
    /\ servicesCalled (turn w ev) = firstn n busyPlan.
Proof.
  assert (Hplan : follows busyPlan
                    (then_ (getEchoUTCOffset (deviceId ev) (consentToken ev))
                           (busyAfterOffset ev))).
  { apply (follows_then resolverPlan [SnoozeService; ProfileService]);
      [apply follows_getEchoUTCOffset | intro; apply follows_busyAfterOffset]. }
  destruct (Hplan w (validationEmits ev)) as (added & Hsnd & [n Hn] & _).
  assert (Hcalled : servicesCalled (turn w ev) = firstn n busyPlan).
  { rewrite busy_turn_unfold; unfold catch_.
    destruct (then_ (getEchoUTCOffset (deviceId ev) (consentToken ev))
                    (busyAfterOffset ev) w (validationEmits ev))
      as [[u|e|] log1]; cbn [snd] in *; subst log1.
    - rewrite servicesCalled_app.
      destruct (validationEmits_emits ev) as [_ ->]; exact Hn.
    - unfold speakError, emit; cbn [snd].
      rewrite !servicesCalled_app.
      destruct (validationEmits_emits ev) as [_ ->]; cbn.
      now rewrite app_nil_r.
    - rewrite servicesCalled_app.
      destruct (validationEmits_emits ev) as [_ ->]; exact Hn. }
  destruct (busy_handler_always_requests_address w ev) as [rest Hfirst].
  assert (Hhead : servicesCalled (turn w ev)
                  = AddressService :: servicesCalled rest).
  { rewrite Hfirst, servicesCalled_app.
    destruct (validationEmits_emits ev) as [_ ->]; reflexivity. }
  exists (Nat.min n 5); split.
  - destruct n as [|n]; [rewrite Hcalled in Hhead; discriminate | lia].
  - rewrite Hcalled.
    destruct (Nat.le_gt_cases n 5) as [Hle|Hgt].
    + now rewrite Nat.min_l.
    + rewrite Nat.min_r by lia.
      rewrite !firstn_all2; [reflexivity | cbn; lia | cbn; lia].
Qed.

(** Once the five values are read, the responses in the log are the
    re-prompts of the validation followed by at most one more. *)
Theorem busy_emits_once_after_validation :
  exists last,
    emitsOf (turn w ev) = (validationEmits ev ++ last)%list
    /\ (List.length last <= 1)%nat.
Proof.
  assert (Hquiet : quiet
            (then_ (then_ (getEchoUTCOffset (deviceId ev) (consentToken ev))
                          (fun offset =>
                             setSlackDNDUntil (timeSlot ev) offset
                               (accessToken ev)))
                   (fun _ =>
                      match statusSlot ev with
                      | Some s =>
                          setSlackStatus (emojifyStatus s) (accessToken ev)
                      | None => reject (TypeError "match")
                      end))).
  { apply quiet_then; [apply quiet_then|].
    - apply quiet_getEchoUTCOffset.
    - intro; apply quiet_setSlackDNDUntil.
    - intro; destruct (statusSlot ev);
        [apply quiet_setSlackStatus | apply quiet_reject]. }
  destruct (Hquiet w (validationEmits ev)) as (added & Hsnd & Hadded).
  unfold turn, slackBusyIntentHandler; cbv zeta.
  unfold then_ at 1 2 3; rewrite !when_emit_run.
  cbn [app]; rewrite <- app_assoc; fold (validationEmits ev).
  unfold catch_, then_ at 1.
  destruct (then_ (then_ (getEchoUTCOffset (deviceId ev) (consentToken ev))
                         (fun offset =>
                            setSlackDNDUntil (timeSlot ev) offset
                              (accessToken ev)))
                  (fun _ =>
                     match statusSlot ev with
                     | Some s =>
                         setSlackStatus (emojifyStatus s) (accessToken ev)
                     | None => reject (TypeError "match")
                     end) w (validationEmits ev))
    as [[u|e|] log1]; cbn [snd] in Hsnd; subst log1.
  - destruct (timeSlot ev) as [t|];
      [destruct (Moment.format_h_mm_a t) as [shown|]|];
      unfold emit, unmodelled; cbn [snd];
      rewrite ?emitsOf_app, Hadded, <- ?app_assoc;
      destruct (validationEmits_emits ev) as [-> _];
      eexists; (split; [reflexivity | cbn; lia]).
  - unfold emit; cbn [snd]; rewrite !emitsOf_app, Hadded, <- app_assoc.
    destruct (validationEmits_emits ev) as [-> _].
    eexists; split; [reflexivity | cbn; lia].
  - cbn [snd]; rewrite emitsOf_app, Hadded.
    destruct (validationEmits_emits ev) as [-> _].
    exists []; split; [reflexivity | cbn; lia].
Qed.

End BusyTurn.

Lemma busy_resolver_failure_is_spoken_witness :
  turn Examples.addressRefused Examples.linked =
  (validationEmits Examples.linked
   ++ resolverRequests Examples.addressRefused
        (deviceId Examples.linked) (consentToken Examples.linked)
   ++ [Emitted ":tell" [errorMessage (Error permissionMessage)]])%list
  /\ (exists n,
         servicesCalled (turn Examples.addressRefused Examples.linked)
         = firstn n resolverPlan).
Proof.
  apply (busy_resolver_failure_is_spoken Examples.addressRefused
           Examples.linked (Error permissionMessage)).
  reflexivity.
Defined.

Lemma busy_success_with_clock_time_witness :
  exists shown,
    Moment.format_h_mm_a "13:00" = Some shown
    /\ turn Examples.allGood Examples.linked =
       (validationEmits Examples.linked
        ++ resolverRequests Examples.allGood
             (deviceId Examples.linked) (consentToken Examples.linked)
        ++ [Requested (Http.SetSnooze 240 (accessToken Examples.linked));
            Requested (Http.SetProfile (emojifyStatus "in a meeting")
                         (accessToken Examples.linked));
            Emitted ":tell"
              [(confirmationPrefix ++ shown ++ ".")%string]])%list.
Proof.
  apply (busy_success_with_clock_time Examples.allGood Examples.linked
           "13:00" "in a meeting" 13 0 TurnExamples.fourHoursWest (-240) 240);
    reflexivity.
Defined.

Lemma busy_success_with_coarse_token_witness :
  turn Examples.allGood MoreExamples.untilMorning =
  (validationEmits MoreExamples.untilMorning
   ++ resolverRequests Examples.allGood
        (deviceId MoreExamples.untilMorning)
        (consentToken MoreExamples.untilMorning)
   ++ [Requested (Http.SetSnooze 0 (accessToken MoreExamples.untilMorning));
       Requested (Http.SetProfile (emojifyStatus "in a meeting")
                    (accessToken MoreExamples.untilMorning));
       Emitted ":tell"
         [(confirmationPrefix ++ "Invalid date.")%string]])%list.
Proof.
  apply (busy_success_with_coarse_token Examples.allGood
           MoreExamples.untilMorning Morning "in a meeting"
           TurnExamples.fourHoursWest (-240) 0);
    reflexivity.
Defined.

Lemma busy_snooze_refused_witness :
  turn MoreExamples.slackDown Examples.linked =
  (validationEmits Examples.linked
   ++ resolverRequests MoreExamples.slackDown
        (deviceId Examples.linked) (consentToken Examples.linked)
   ++ [Requested (Http.SetSnooze 240 (accessToken Examples.linked));
       Emitted ":tell"
         [(snoozePrefix ++ JsString.interpolate
             (Http.error
                (Http.body
                   (respond MoreExamples.slackDown
                      (Http.SetSnooze 240 (accessToken Examples.linked))))))
          %string]])%list.
Proof.
  apply (busy_snooze_refused MoreExamples.slackDown Examples.linked
           "13:00" TurnExamples.fourHoursWest (-240) 240);
    reflexivity.
Defined.

Lemma busy_status_refused_witness :
  turn TurnExamples.statusRefused Examples.linked =
  (validationEmits Examples.linked
   ++ resolverRequests TurnExamples.statusRefused
        (deviceId Examples.linked) (consentToken Examples.linked)
   ++ [Requested (Http.SetSnooze 240 (accessToken Examples.linked));
       Requested (Http.SetProfile (emojifyStatus "in a meeting")
                    (accessToken Examples.linked));
       Emitted ":tell"
         [(statusPrefix ++ JsString.interpolate
             (Http.error
                (Http.body
                   (respond TurnExamples.statusRefused
                      (Http.SetProfile (emojifyStatus "in a meeting")
                         (accessToken Examples.linked))))))%string]])%list.
Proof.
  apply (busy_status_refused TurnExamples.statusRefused Examples.linked
           "13:00" "in a meeting" TurnExamples.fourHoursWest (-240) 240);
    reflexivity.
Defined.

(** The example turns, spelled out. *)
Lemma busy_turn_examples :
  turn Examples.allGood MoreExamples.untilMorning =
  (TurnExamples.resolverCalls
   ++ [Requested (Http.SetSnooze 0 (Some "xoxp-1"));
       Requested (Http.SetProfile (mkProfile "in a meeting" ":calendar:")
                    (Some "xoxp-1"));
       Emitted ":tell" [(confirmationPrefix ++ "Invalid date.")%string]])%list
  /\ turn MoreExamples.slackDown Examples.linked =
     (TurnExamples.resolverCalls
      ++ [Requested (Http.SetSnooze 240 (Some "xoxp-1"));
          Emitted ":tell" [(snoozePrefix ++ "account_inactive")%string]])%list
  /\ turn TurnExamples.statusRefused Examples.linked =
     (TurnExamples.resolverCalls
      ++ [Requested (Http.SetSnooze 240 (Some "xoxp-1"));
          Requested (Http.SetProfile (mkProfile "in a meeting" ":calendar:")
                       (Some "xoxp-1"));
          Emitted ":tell" [(statusPrefix ++ "too_long")%string]])%list.
Proof.
  repeat split.
Qed.

(** ** The other intents *)

(** X18: Clearing the status always makes exactly one call, the profile call
    with empty text and emoji, whether or not an account is linked; without
    a linked account the link-account response comes first and a second
    response follows.  The last response is "cleared" when Slack accepts
    and Slack's error otherwise. *)
Theorem clear_status_turn :
  forall (w : World) (ev : IntentEvent),
    let call := Http.SetProfile (mkProfile "" "") (accessToken ev) in
    turnOf w "SlackClearStatusIntent" ev =
    ((if JsString.truthy (accessToken ev) then []
      else [Emitted ":tellWithLinkAccountCard" [linkAccountSpeech]])
     ++ [Requested call;
         Emitted ":tell"
           [if slackAccepts (respond w call) then clearedSpeech
            else (statusPrefix ++ JsString.interpolate
                    (Http.error (Http.body (respond w call))))%string]])%list.
Proof.
  intros w ev call.
  unfold turnOf, dispatch; cbn [handlers lookupHandler String.eqb Ascii.eqb
                                 Bool.eqb].
  unfold slackClearStatusIntentHandler; cbv zeta.
  unfold then_ at 1; rewrite when_emit_run; cbn [app].
  unfold catch_, then_; rewrite setSlackStatus_run; cbv zeta; fold call.
  destruct (slackAccepts (respond w call)); unfold emit; cbn [snd errorMessage];
    now rewrite <- app_assoc.
Qed.

(** X19: Every registered intent other than the two Slack intents emits exactly
    one response and calls no service. *)
Theorem other_intents_emit_once :
  forall (w : World) (name : string) (ev : IntentEvent),
    In name (map fst handlers) ->
    name <> "SlackClearStatusIntent" ->
    name <> "SlackBusyIntent" ->
    exists verb arguments, turnOf w name ev = [Emitted verb arguments].
Proof.
  intros w name ev Hin Hclear Hbusy.
  cbn in Hin.
  destruct Hin as [<-|[<-|[<-|[<-|[<-|[<-|[<-|[]]]]]]]];
    try congruence; unfold turnOf, dispatch;
    cbn [handlers lookupHandler String.eqb Ascii.eqb Bool.eqb].
  - unfold launchRequestHandler; cbv zeta.
    destruct (JsString.truthy (accessToken ev)); eexists; eexists; reflexivity.
  - eexists; eexists; reflexivity.
  - eexists; eexists; reflexivity.
  - eexists; eexists; reflexivity.
  - eexists; eexists; reflexivity.
Qed.

Lemma other_intents_emit_once_witness :
  exists verb arguments,
    turnOf Examples.allGood "AMAZON.HelpIntent" Examples.notLinked
    = [Emitted verb arguments].
Proof.
  apply (other_intents_emit_once Examples.allGood "AMAZON.HelpIntent"
           Examples.notLinked).
  - cbn; tauto.
  - discriminate.
  - discriminate.
Defined.

(** ** The target of the specification and the target of the code *)

(** C3: at 01:00 UTC on June 2nd the clock shows 20:00 of June 1st five
    hours west of UTC.  The requested 21:00, today at that offset, is one
    hour after now, so the duration is 60 minutes with no day added.  The
    code places 21:00 on the UTC date, June 2nd, and returns 1500. *)
Theorem getMinutesUntil_target_on_utc_date :
  let h := utcHost Examples.shortlyAfterMidnightUtc in
  Moment.parseHHmm "21:00" = Some (21, 0)
  /\ clock h <= DurationSpec.targetInstant h 21 0 (-300)
  /\ (DurationSpec.targetInstant h 21 0 (-300) - clock h)
     / Moment.msPerMinute = 60
  /\ DurationSpec.minutesUntil h 21 0 (-300) = 60
  /\ targetInstant h 21 0 (-300)
     = DurationSpec.targetInstant h 21 0 (-300) + Moment.msPerDay
  /\ getMinutesUntil h "21:00" (-300) = Some 1500.
Proof.
  cbv zeta; repeat split; try reflexivity.
  vm_compute; discriminate.
Qed.

(** Where the clock shows the same date at the offset as in UTC, and the
    offset is one that moment reads as minutes, the code's target on a host
    in UTC is the specification's, and so is the result. *)
Lemma getMinutesUntil_agrees_on_same_date (ms : Z) (time : string)
    (offset H M : Z) :
  Moment.parseHHmm time = Some (H, M) ->
  offset = 0 \/ 16 <= Z.abs offset ->
  sameDateAsUtc (utcHost ms) offset ->
  targetInstant (utcHost ms) H M offset
  = DurationSpec.targetInstant (utcHost ms) H M offset
  /\ getMinutesUntil (utcHost ms) time offset
     = Some (DurationSpec.minutesUntil (utcHost ms) H M offset).
Proof.
  intros Hparse Hoffset Hsame.
  assert (Htarget : targetInstant (utcHost ms) H M offset
                    = DurationSpec.targetInstant (utcHost ms) H M offset).
  { unfold sameDateAsUtc, Moment.startOfUtcDay in Hsame.
    rewrite (offsetMinutes_minutes offset Hoffset) in Hsame.
    rewrite targetInstant_utcHost, (offsetMinutes_minutes offset Hoffset).
    unfold DurationSpec.targetInstant, DurationSpec.startOfDayAt.
    cbn [clock utcHost] in *; lia. }
  split; [exact Htarget|].
  rewrite (getMinutesUntil_closed_form _ time offset H M Hparse).
  unfold DurationSpec.minutesUntil; cbv zeta; now rewrite Htarget.
Qed.

(** ** The busy/snooze turn on an inbound event *)

Lemma catch_then_cases {A B} (p : Promise A) (k : A -> Promise B)
    (handler : JsError -> Promise B) (w : World) (log : list Event) :
  catch_ (then_ p k) handler w log =
  match p w log with
  | (Fulfilled a, log') => catch_ (k a) handler w log'
  | (Rejected e, log') => handler e w log'
  | (Unmodelled, log') => (Unmodelled, log')
  end.
Proof.
  unfold catch_, then_; now destruct (p w log) as [[a|e|] log'].
Qed.

Lemma busy_run_emits (w : World) (ev : IntentEvent) :
  fst (slackBusyIntentHandler ev w []) <> Unmodelled ->
  exists last,
    emitsOf (snd (slackBusyIntentHandler ev w []))
    = (validationEmits ev ++ [last])%list.
Proof.
  assert (Hquiet : quiet
            (then_ (then_ (getEchoUTCOffset (deviceId ev) (consentToken ev))
                          (fun offset =>
                             setSlackDNDUntil (timeSlot ev) offset
                               (accessToken ev)))
                   (fun _ =>
                      match statusSlot ev with
                      | Some s =>
                          setSlackStatus (emojifyStatus s) (accessToken ev)
                      | None => reject (TypeError "match")
                      end))).
  { apply quiet_then; [apply quiet_then|].
    - apply quiet_getEchoUTCOffset.
    - intro; apply quiet_setSlackDNDUntil.
    - intro; destruct (statusSlot ev);
        [apply quiet_setSlackStatus | apply quiet_reject]. }
  destruct (Hquiet w (validationEmits ev)) as (added & Hsnd & Hadded).
  destruct (validationEmits_emits ev) as [Hvalidation _].
  assert (Hrun : slackBusyIntentHandler ev w [] =
                 catch_
                   (then_
                      (then_ (then_ (getEchoUTCOffset (deviceId ev)
                                       (consentToken ev))
                                    (fun offset =>
                                       setSlackDNDUntil (timeSlot ev) offset
                                         (accessToken ev)))
                             (fun _ =>
                                match statusSlot ev with
                                | Some s =>
                                    setSlackStatus (emojifyStatus s)
                                      (accessToken ev)
                                | None => reject (TypeError "match")
                                end))
                      (fun _ =>
                         match timeSlot ev with
                         | Some t =>
                             match Moment.format_h_mm_a t with
                             | Some shown =>
                                 emit ":tell"
                                   [confirmationPrefix ++ shown ++ "."]
                             | None => unmodelled
                             end
                         | None => unmodelled
                         end))
                   (fun error => emit ":tell" [errorMessage error])
                   w (validationEmits ev)).
  { unfold slackBusyIntentHandler; cbv zeta.
    unfold then_ at 1 2 3; rewrite !when_emit_run.
    cbn [app]; now rewrite <- app_assoc. }
  rewrite Hrun, catch_then_cases.
  destruct (then_ (then_ (getEchoUTCOffset (deviceId ev) (consentToken ev))
                         (fun offset =>
                            setSlackDNDUntil (timeSlot ev) offset
                              (accessToken ev)))
                  (fun _ =>
                     match statusSlot ev with
                     | Some s =>
                         setSlackStatus (emojifyStatus s) (accessToken ev)
                     | None => reject (TypeError "match")
                     end) w (validationEmits ev))
    as [[u|e|] log1]; cbn [snd] in Hsnd; subst log1.
  - destruct (timeSlot ev) as [t|];
      [destruct (Moment.format_h_mm_a t) as [shown|]|];
      unfold catch_, emit, unmodelled; cbn [fst snd]; intros Hmodelled;
      try (exfalso; apply Hmodelled; reflexivity).
    rewrite !emitsOf_app, Hadded, app_nil_r, Hvalidation.
    eexists; reflexivity.
  - unfold emit; cbn [fst snd]; intros _.
    rewrite !emitsOf_app, Hadded, app_nil_r, Hvalidation.
    eexists; reflexivity.
  - cbn [fst]; intros Hmodelled; exfalso; apply Hmodelled; reflexivity.
Qed.

(** X16: on every inbound event and whatever the services answer, as long
    as the run stays within what is modelled: when one of the reads of
    lines 60-64 throws, the turn makes no call and emits nothing;
    otherwise the services it calls are an initial part of address,
    geocoding, timezone, snooze, profile, beginning with the address
    service, none called twice and none before the one in front of it. *)
Theorem busy_turn_calls_in_order :
  forall (w : World) (e : Alexa.Event),
    modelled w e ->
    match busyValues e with
    | inl _ => busyEvents w e = []
    | inr _ =>
        exists n,
          (1 <= n <= 5)%nat
          /\ servicesCalled (busyEvents w e) = firstn n busyPlan
    end.
Proof.
  intros w e _; unfold busyEvents, slackBusyIntent.
  destruct (busyValues e) as [error|ev]; [reflexivity|].
  exact (busy_calls_in_order w ev).
Qed.

Lemma busy_turn_calls_in_order_witness :
  exists n,
    (1 <= n <= 5)%nat
    /\ servicesCalled (busyEvents Examples.allGood EventExamples.granted)
       = firstn n busyPlan.
Proof.
  apply (busy_turn_calls_in_order Examples.allGood EventExamples.granted).
  vm_compute; discriminate.
Defined.

(** X17: on every inbound event and whatever the services answer, as long
    as the run stays within what is modelled: when one of the reads of
    lines 60-64 throws, the turn emits nothing; otherwise the responses it
    emits are the re-prompts of the validation followed by exactly one
    more, so that a turn in which nothing is missing emits exactly one
    response. *)
Theorem busy_turn_emits_once :
  forall (w : World) (e : Alexa.Event),
    modelled w e ->
    match busyValues e with
    | inl _ => busyEvents w e = []
    | inr ev =>
        exists last,
          emitsOf (busyEvents w e) = (validationEmits ev ++ [last])%list
    end.
Proof.
  intros w e; unfold modelled, busyEvents, slackBusyIntent.
  destruct (busyValues e) as [error|ev]; [reflexivity|].
  apply busy_run_emits.
Qed.

Lemma busy_turn_emits_once_witness :
  exists last,
    emitsOf (busyEvents Examples.allGood EventExamples.granted)
    = (validationEmits Examples.linked ++ [last])%list.
Proof.
  apply (busy_turn_emits_once Examples.allGood EventExamples.granted).
  vm_compute; discriminate.
Defined.

(** Without a [permissions] object line 61 throws: no response, no call. *)
Lemma busy_turn_without_permissions :
  busyValues EventExamples.notGranted = inl (TypeError "consentToken")
  /\ busyEvents Examples.allGood EventExamples.notGranted = []
  /\ busyValues EventExamples.granted = inr Examples.linked.
Proof.
  repeat split.
Qed.
